(** * Query layer of the support-ticket server (src/src/mcp_server.py)

    A shallow embedding of the three query tools [consultar_tickets],
    [obtener_estadisticas] and [buscar_tickets_por_texto], of
    [get_db_connection], and of the part of SQLite they drive: one table
    [tickets] (schema of scripts/setup_db.py), the SELECT statements the
    tools send, three-valued WHERE clauses, LIKE, GROUP BY / COUNT,
    ORDER BY and LIMIT.

    Conventions of the embedding.
    - A Python [str] / SQLite TEXT is a [string]; each [ascii] stands for
      one character, so the texts covered are those over the code points
      0..255.  On these, UTF-8 byte order (SQLite's BINARY collation) is
      code-point order, which is [String.compare]; a character takes one
      byte below U+0080 and two from there on.
    - A Python [int] / SQLite INTEGER is a [Z].
    - Python code runs in a state-and-exception monad over a [world]: the
      file system entry at DB_PATH, the connections currently open, and
      the log of the statements SQLite executed.
    - A SQL text with its bound parameters is a [stmt]; column names that
      the source splices into the text stay strings and are resolved when
      the statement is executed, as SQLite does when it prepares it.
    - ORDER BY leaves the order of ties open; the embedding follows what
      SQLite does: its sort is stable, so tied tickets stay in table order,
      and tied groups stay in the order GROUP BY delivers them, which under
      ORDER BY ... DESC is descending key order.
    - LIKE is SQLite's: it folds the case of ASCII letters only, reads the
      pattern and the text up to their first NUL, and raises on a pattern
      of more than 50000 bytes.
    - A parameter is bound before the statement runs: a text of more than
      1000000000 bytes is refused there. *)

From Stdlib Require Import List String Ascii ZArith NArith Bool Lia.
From Stdlib Require Import Sorted Permutation DecimalString.
Import ListNotations.
Local Open Scope string_scope.
Local Open Scope Z_scope.

(* ------------------------------------------------------------------ *)
(** ** Strings *)

Module Str.

(** [str.lower()] on one character: A-Z and the Latin-1 capitals
    (U+00C0..U+00DE except the multiplication sign U+00D7) move up by 32. *)
Definition lower_char (c : ascii) : ascii :=
  let n := N_of_ascii c in
  if (((65 <=? n) && (n <=? 90)) ||
      ((192 <=? n) && (n <=? 222) && negb (n =? 215)))%N
  then ascii_of_N (n + 32) else c.

Fixpoint lower (s : string) : string :=
  match s with
  | EmptyString => EmptyString
  | String c s' => String (lower_char c) (lower s')
  end.

(** SQLite folds case in LIKE for ASCII letters only. *)
Definition fold_ascii (c : ascii) : ascii :=
  let n := N_of_ascii c in
  if ((65 <=? n) && (n <=? 90))%N then ascii_of_N (n + 32) else c.

Definition percent : ascii := "%"%char.
Definition underscore : ascii := "_"%char.

(** [like pat s]: the SQL operator [s LIKE pat] without ESCAPE clause.
    '%' stands for any run of characters, '_' for exactly one, any other
    character for itself up to ASCII case. *)
Fixpoint like (pat s : string) {struct pat} : bool :=
  match pat with
  | EmptyString => match s with EmptyString => true | String _ _ => false end
  | String c pat' =>
      if Ascii.eqb c percent then
        (fix star (s : string) : bool :=
           like pat' s ||
           match s with
           | EmptyString => false
           | String _ s' => star s'
           end) s
      else
        match s with
        | EmptyString => false
        | String d s' =>
            (Ascii.eqb c underscore || Ascii.eqb (fold_ascii c) (fold_ascii d))
            && like pat' s'
        end
  end.



(** [contains b s]: Python's [b in s]. *)
Fixpoint contains (b s : string) : bool :=
  String.prefix b s ||
  match s with
  | EmptyString => false
  | String _ s' => contains b s'
  end.


(** [x in [a; b; ...]] for a list of strings. *)
Definition mem (x : string) (l : list string) : bool :=
  existsb (String.eqb x) l.

Definition nul : ascii := "000"%char.

(** The text as C reads it: up to its first NUL. *)
Fixpoint c_string (s : string) : string :=
  match s with
  | EmptyString => EmptyString
  | String c s' =>
      if Ascii.eqb c nul then EmptyString else String c (c_string s')
  end.

(** Length of the UTF-8 encoding of the text, in bytes. *)
Fixpoint utf8_bytes (s : string) : N :=
  match s with
  | EmptyString => 0%N
  | String c s' =>
      ((if N_of_ascii c <? 128 then 1 else 2) + utf8_bytes s')%N
  end.

(** [c * n] *)
Fixpoint replicate (n : nat) (c : ascii) : string :=
  match n with
  | O => EmptyString
  | S n' => String c (replicate n' c)
  end.


(** The text with A-Z replaced by a-z, every other character kept. *)
Fixpoint fold (s : string) : string :=
  match s with
  | EmptyString => EmptyString
  | String c s' => String (fold_ascii c) (fold s')
  end.

End Str.

(* ------------------------------------------------------------------ *)
(** ** Values, rows and tickets *)

Inductive value : Type :=
| VNull
| VInt (n : Z)
| VText (s : string).

Definition value_eqb (a b : value) : bool :=
  match a, b with
  | VNull, VNull => true
  | VInt x, VInt y => Z.eqb x y
  | VText x, VText y => String.eqb x y
  | _, _ => false
  end.

(** Order of values under the BINARY collation: NULL first, then
    integers, then texts by code points. *)
Definition value_leb (a b : value) : bool :=
  match a, b with
  | VNull, _ => true
  | _, VNull => false
  | VInt x, VInt y => x <=? y
  | VInt _, VText _ => true
  | VText _, VInt _ => false
  | VText x, VText y => String.leb x y
  end.

Definition row := list value.

(** One row of the table [tickets] (CREATE TABLE of scripts/setup_db.py):
    [descripcion] is the only nullable column. *)
Record ticket : Type := mkTicket {
  id : Z;
  cliente : string;
  asunto : string;
  descripcion : option string;
  estado : string;
  prioridad : string;
  fecha_creacion : string;
  fecha_actualizacion : string
}.

Definition nullable (o : option string) : value :=
  match o with
  | Some s => VText s
  | None => VNull
  end.

Definition ticket_columns : list string :=
  ["id"; "cliente"; "asunto"; "descripcion"; "estado"; "prioridad";
   "fecha_creacion"; "fecha_actualizacion"].

Definition ticket_row (t : ticket) : row :=
  [VInt (id t); VText (cliente t); VText (asunto t);
   nullable (descripcion t); VText (estado t); VText (prioridad t);
   VText (fecha_creacion t); VText (fecha_actualizacion t)].

(** Value of a named column in a row of [tickets]; [None] when the table
    has no such column. *)
Definition column_value (col : string) (t : ticket) : option value :=
  if String.eqb col "id" then Some (VInt (id t))
  else if String.eqb col "cliente" then Some (VText (cliente t))
  else if String.eqb col "asunto" then Some (VText (asunto t))
  else if String.eqb col "descripcion" then Some (nullable (descripcion t))
  else if String.eqb col "estado" then Some (VText (estado t))
  else if String.eqb col "prioridad" then Some (VText (prioridad t))
  else if String.eqb col "fecha_creacion" then Some (VText (fecha_creacion t))
  else if String.eqb col "fecha_actualizacion" then Some (VText (fecha_actualizacion t))
  else None.

Definition column_or_null (col : string) (t : ticket) : value :=
  match column_value col t with
  | Some v => v
  | None => VNull
  end.

(* ------------------------------------------------------------------ *)
(** ** Python dictionaries (insertion ordered) *)

Module Dict.
Section Ops.
Context {K V : Type} (eqb : K -> K -> bool).

(** [d[k] = v]: overwrite in place, or append a new key. *)
Fixpoint set (k : K) (v : V) (d : list (K * V)) : list (K * V) :=
  match d with
  | [] => [(k, v)]
  | (k', v') :: d' =>
      if eqb k k' then (k', v) :: d' else (k', v') :: set k v d'
  end.

Fixpoint get (k : K) (d : list (K * V)) : option V :=
  match d with
  | [] => None
  | (k', v') :: d' => if eqb k k' then Some v' else get k d'
  end.

(** [dict(pairs)] *)
Definition of_pairs (l : list (K * V)) : list (K * V) :=
  fold_left (fun d kv => set (fst kv) (snd kv) d) l [].

Definition values (d : list (K * V)) : list V := map snd d.
Definition keys (d : list (K * V)) : list K := map fst d.
End Ops.
End Dict.

(** A ticket as the tools return it: [dict(zip(columns, row))]. *)
Definition record := list (string * value).

Definition zip_dict (columns : list string) (r : row) : record :=
  Dict.of_pairs String.eqb (combine columns r).

Definition ticket_dict (t : ticket) : record :=
  zip_dict ticket_columns (ticket_row t).

Definition field (k : string) (d : record) : option value :=
  Dict.get String.eqb k d.

(* ------------------------------------------------------------------ *)
(** ** The SQL statements of the tools, and their evaluation *)

Module Sql.

(** SQL truth values. *)
Inductive tv : Type := T | F | Unknown.

Definition tv_of_bool (b : bool) : tv := if b then T else F.

Definition tv_and (a b : tv) : tv :=
  match a, b with
  | F, _ | _, F => F
  | T, T => T
  | _, _ => Unknown
  end.

Definition tv_or (a b : tv) : tv :=
  match a, b with
  | T, _ | _, T => T
  | F, F => F
  | _, _ => Unknown
  end.

(** A WHERE clause with its parameters bound. *)
Inductive expr : Type :=
| One_eq_one                              (* 1=1 *)
| Eq (col : string) (param : value)       (* col = ? *)
| Like (col : string) (param : value)     (* col LIKE ? *)
| And (a b : expr)
| Or (a b : expr).

(** The three shapes of SELECT the tools send; all read FROM tickets. *)
Inductive stmt : Type :=
| SelectAll (where_ : expr) (limit : Z)
    (* SELECT * FROM tickets WHERE where_
       ORDER BY fecha_creacion DESC LIMIT limit *)
| SelectCount (where_ : option expr)
    (* SELECT COUNT( * ) FROM tickets [WHERE where_] *)
| SelectGroupCount (col : string) (limit : option Z).
    (* SELECT col, COUNT( * ) as cantidad FROM tickets
       GROUP BY col ORDER BY cantidad DESC [LIMIT limit] *)

(** Text of a value, as SQLite casts the operands of LIKE. *)
Definition text_of (v : value) : option string :=
  match v with
  | VNull => None
  | VInt n => Some (NilZero.string_of_int (Z.to_int n))
  | VText s => Some s
  end.

(** [a = b].  The tools only compare a TEXT column with a TEXT parameter;
    values of different storage classes are taken as different. *)
Definition sql_eq (a b : value) : tv :=
  match a, b with
  | VNull, _ | _, VNull => Unknown
  | _, _ => tv_of_bool (value_eqb a b)
  end.

(** SQLITE_MAX_LIKE_PATTERN_LENGTH *)
Definition max_like_pattern_length : N := 50000.

Definition pattern_fits (p : string) : bool :=
  (Str.utf8_bytes p <=? max_like_pattern_length)%N.

(** Evaluating [... LIKE pat] raises 'LIKE or GLOB pattern too complex':
    the pattern is longer than the limit.  SQLite checks this first,
    whatever the left operand, NULL included. *)
Definition like_raises (pat : value) : bool :=
  match text_of pat with
  | Some p => negb (pattern_fits p)
  | None => false
  end.

(** LIKE on two texts: both are read up to their first NUL. *)
Definition like_text (pat s : string) : bool :=
  Str.like (Str.c_string pat) (Str.c_string s).

(** [a LIKE pat], for a pattern that does not raise. *)
Definition sql_like (a pat : value) : tv :=
  match text_of a, text_of pat with
  | Some s, Some p => tv_of_bool (like_text p s)
  | _, _ => Unknown
  end.

Fixpoint eval (e : expr) (t : ticket) : tv :=
  match e with
  | One_eq_one => T
  | Eq col v => sql_eq (column_or_null col t) v
  | Like col v => sql_like (column_or_null col t) v
  | And a b => tv_and (eval a t) (eval b t)
  | Or a b => tv_or (eval a t) (eval b t)
  end.

(** WHERE keeps the rows on which the clause is true (not false, not
    unknown). *)
Definition holds (e : expr) (t : ticket) : bool :=
  match eval e t with
  | T => true
  | _ => false
  end.

Definition is_true (v : tv) : bool :=
  match v with T => true | _ => false end.

(** Evaluating the clause on row [t] raises: it comes to a LIKE whose
    pattern is too long.  AND and OR are evaluated left to right; AND
    goes on to its right operand when the left one is true, OR when the
    left one is not. *)
Fixpoint too_complex (e : expr) (t : ticket) : bool :=
  match e with
  | One_eq_one => false
  | Eq _ _ => false
  | Like _ pat => like_raises pat
  | And a b => too_complex a t || (is_true (eval a t) && too_complex b t)
  | Or a b =>
      too_complex a t || (negb (is_true (eval a t)) && too_complex b t)
  end.

Definition is_column (col : string) : bool := Str.mem col ticket_columns.

(** The values bound to the '?' of the clause, in the order of the text. *)
Fixpoint expr_params (e : expr) : list value :=
  match e with
  | One_eq_one => []
  | Eq _ v | Like _ v => [v]
  | And a b | Or a b => expr_params a ++ expr_params b
  end.

(** The parameters passed with the statement.  The listing and the search
    bind their texts and, last, the limit; the statements of the
    statistics are sent without parameters (their WHERE clauses compare
    with literals, and LIMIT 5 is part of the text). *)
Definition params (s : stmt) : list value :=
  match s with
  | SelectAll w limit => expr_params w ++ [VInt limit]
  | SelectCount _ => []
  | SelectGroupCount _ _ => []
  end.

(** SQLITE_MAX_LENGTH: the longest TEXT, in bytes, that SQLite binds. *)
Definition max_length : N := 1000000000.

(** INT_MAX: the longest str, in bytes of its UTF-8 encoding, that the
    sqlite3 module passes on to SQLite. *)
Definition int_max : N := 2147483647.

Fixpoint expr_ok (e : expr) : bool :=
  match e with
  | One_eq_one => true
  | Eq col _ | Like col _ => is_column col
  | And a b | Or a b => expr_ok a && expr_ok b
  end.

(** Every column the statement names exists (checked when SQLite prepares
    the statement). *)
Definition stmt_ok (s : stmt) : bool :=
  match s with
  | SelectAll w _ => expr_ok w
  | SelectCount None => true
  | SelectCount (Some w) => expr_ok w
  | SelectGroupCount col _ => is_column col
  end.

Section Sorting.
Context {A : Type} (before : A -> A -> bool).

(** Stable insertion: [x] goes in front of the first element it may
    precede. *)
Fixpoint insert (x : A) (l : list A) : list A :=
  match l with
  | [] => [x]
  | y :: l' => if before x y then x :: l else y :: insert x l'
  end.

Fixpoint sort (l : list A) : list A :=
  match l with
  | [] => []
  | x :: l' => insert x (sort l')
  end.
End Sorting.

(** [a] may precede [b] under ORDER BY fecha_creacion DESC. *)
Definition newer_first (a b : ticket) : bool :=
  String.leb (fecha_creacion b) (fecha_creacion a).

Definition order_by_fecha_desc (l : list ticket) : list ticket :=
  sort newer_first l.

(** LIMIT n: a negative [n] means no limit. *)
Definition limit_rows {A : Type} (n : Z) (l : list A) : list A :=
  if n <? 0 then l else firstn (Z.to_nat n) l.

(** COUNT( * ) per distinct value: [bump] counts one more row for [k]. *)
Fixpoint bump (k : value) (groups : list (value * Z)) : list (value * Z) :=
  match groups with
  | [] => [(k, 1)]
  | (k', n) :: g' =>
      if value_eqb k k' then (k', n + 1) :: g' else (k', n) :: bump k g'
  end.

Definition tally (keys : list value) : list (value * Z) :=
  fold_left (fun g k => bump k g) keys [].

(** [a] may precede [b] when the groups come in descending key order. *)
Definition key_desc (a b : value * Z) : bool := value_leb (fst b) (fst a).

(** GROUP BY col with COUNT( * ), as delivered to ORDER BY cantidad DESC:
    one group per distinct value, in descending order of the value (SQLite
    gives GROUP BY the direction of the ORDER BY term). *)
Definition group_count (keys : list value) : list (value * Z) :=
  sort key_desc (tally keys).

(** [a] may precede [b] under ORDER BY cantidad DESC. *)
Definition bigger_first (a b : value * Z) : bool := snd b <=? snd a.

Definition opt_limit {A : Type} (o : option Z) (l : list A) : list A :=
  match o with
  | Some n => limit_rows n l
  | None => l
  end.

Definition where_rows (w : option expr) (rows : list ticket) : list ticket :=
  match w with
  | Some e => filter (holds e) rows
  | None => rows
  end.

(** Column names of the result ([cursor.description]). *)
Definition result_columns (s : stmt) : list string :=
  match s with
  | SelectAll _ _ => ticket_columns
  | SelectCount _ => ["COUNT(" ++ "*)"]
  | SelectGroupCount col _ => [col; "cantidad"]
  end.

(** Running the statement on the table [rows] raises 'LIKE or GLOB
    pattern too complex': the WHERE clause does on some row.  (On an empty
    table no LIKE is evaluated.) *)
Definition raises_on (s : stmt) (rows : list ticket) : bool :=
  match s with
  | SelectAll w _ => existsb (too_complex w) rows
  | SelectCount (Some w) => existsb (too_complex w) rows
  | SelectCount None => false
  | SelectGroupCount _ _ => false
  end.

(** Rows of the result, on a table [rows], when the statement does not
    raise. *)
Definition run (s : stmt) (rows : list ticket) : list row :=
  match s with
  | SelectAll w n =>
      map ticket_row
        (limit_rows n (order_by_fecha_desc (filter (holds w) rows)))
  | SelectCount w =>
      [[VInt (Z.of_nat (List.length (where_rows w rows)))]]
  | SelectGroupCount col n =>
      map (fun g => [fst g; VInt (snd g)])
        (opt_limit n
           (sort bigger_first
              (group_count (map (column_or_null col) rows))))
  end.

End Sql.

(* ------------------------------------------------------------------ *)
(** ** The world the tools run in *)

(** What the file at DB_PATH holds, when there is one: a database without
    the table [tickets] (sqlite3 opens any empty file as such), or one
    with it. *)
Inductive database : Type :=
| NoTicketsTable
| TicketsTable (rows : list ticket).

Definition conn := nat.

Record world : Type := mkWorld {
  db_path : string;                (* DB_PATH *)
  db_file : option database;       (* [None]: no file at DB_PATH *)
  next_conn : conn;                (* next fresh connection handle *)
  open_conns : list conn;          (* handles opened and not closed by a
                                      call of close(); what CPython's
                                      garbage collector finalises later is
                                      outside the embedding *)
  executed : list Sql.stmt         (* statements that ran to completion,
                                      oldest first *)
}.

Inductive exn : Type :=
| FileNotFoundError (msg : string)
| ValueError (msg : string)
| OperationalError (msg : string)     (* sqlite3.OperationalError *)
| ProgrammingError (msg : string)     (* sqlite3.ProgrammingError *)
| DataError (msg : string)            (* sqlite3.DataError *)
| OverflowError (msg : string)
| TypeError (msg : string).

Inductive outcome (A : Type) : Type :=
| Return (a : A)
| Raise (e : exn).
Arguments Return {A} a.
Arguments Raise {A} e.

(** A Python computation: it reads and changes the world, and either
    returns or raises. *)
Definition M (A : Type) : Type := world -> outcome A * world.

Definition ret {A : Type} (a : A) : M A := fun w => (Return a, w).

Definition raise {A : Type} (e : exn) : M A := fun w => (Raise e, w).

Definition bind {A B : Type} (m : M A) (k : A -> M B) : M B :=
  fun w =>
    match m w with
    | (Return a, w') => k a w'
    | (Raise e, w') => (Raise e, w')
    end.

Declare Scope py_scope.
Delimit Scope py_scope with py.
Notation "x <- m ;; k" := (bind m (fun x => k))
  (at level 100, m at next level, right associativity) : py_scope.
Notation "m ;; k" := (bind m (fun _ => k))
  (at level 100, right associativity) : py_scope.
Local Open Scope py_scope.

(** sqlite3.connect on an existing file: a fresh handle, nothing read yet. *)
Definition connect : M conn :=
  fun w =>
    (Return (next_conn w),
     mkWorld (db_path w) (db_file w) (S (next_conn w))
             (next_conn w :: open_conns w) (executed w)).

(** conn.close() *)
Definition close (c : conn) : M unit :=
  fun w =>
    (Return tt,
     mkWorld (db_path w) (db_file w) (next_conn w)
             (remove Nat.eq_dec c (open_conns w)) (executed w)).

Record cursor : Type := mkCursor {
  description : list string;
  pending : list row
}.

(** Binding one parameter.  A str longer than INT_MAX bytes is refused by
    the sqlite3 module, one longer than SQLITE_MAX_LENGTH by SQLite; an
    int of the tools is a clamped limit and always binds. *)
Definition bind_param (v : value) : option exn :=
  match v with
  | VText s =>
      if (Sql.int_max <? Str.utf8_bytes s)%N then
        Some (OverflowError "string longer than INT_MAX bytes")
      else if (Sql.max_length <? Str.utf8_bytes s)%N then
        Some (DataError "string or blob too big")
      else None
  | _ => None
  end.

(** Binding the parameters in order: the first failure ends the call. *)
Fixpoint bind_parameters (vs : list value) : option exn :=
  match vs with
  | [] => None
  | v :: vs' =>
      match bind_param v with
      | Some e => Some e
      | None => bind_parameters vs'
      end
  end.

(** cursor.execute(query, params) on a cursor of connection [c]
    ([conn.cursor()] itself has no effect on the world): the statement is
    prepared, its parameters are bound, and it is run.  A file removed
    after the connection was made is read as a database without table. *)
Definition execute (c : conn) (s : Sql.stmt) : M cursor :=
  fun w =>
    if negb (existsb (Nat.eqb c) (open_conns w)) then
      (Raise (ProgrammingError "Cannot operate on a closed database."), w)
    else
      match db_file w with
      | Some (TicketsTable rows) =>
          if Sql.stmt_ok s then
            match bind_parameters (Sql.params s) with
            | Some e => (Raise e, w)
            | None =>
                if Sql.raises_on s rows then
                  (Raise
                     (OperationalError "LIKE or GLOB pattern too complex"),
                   w)
                else
                  (Return (mkCursor (Sql.result_columns s) (Sql.run s rows)),
                   mkWorld (db_path w) (db_file w) (next_conn w)
                           (open_conns w) (executed w ++ [s]))
            end
          else (Raise (OperationalError "no such column"), w)
      | Some NoTicketsTable | None =>
          (Raise (OperationalError "no such table: tickets"), w)
      end.

Definition fetchall (cur : cursor) : list row := pending cur.

Definition fetchone (cur : cursor) : option row := hd_error (pending cur).

(** [r[i]] on what [fetchone()] gave. *)
Definition subscript (r : option row) (i : nat) : M value :=
  match r with
  | Some r => ret (nth i r VNull)
  | None => raise (TypeError "'NoneType' object is not subscriptable")
  end.

(** [row[i]] on a row of [fetchall()]; every row is as wide as the
    statement's column list. *)
Definition item (r : row) (i : nat) : value := nth i r VNull.

(** Python truthiness of an [Optional[str]]: [None] and the empty string
    are false. *)
Definition truthy (o : option string) : option string :=
  match o with
  | Some EmptyString => None
  | Some s => Some s
  | None => None
  end.

Definition a_acute : string := String "225"%char EmptyString.

(* ------------------------------------------------------------------ *)
(** ** src/src/mcp_server.py *)

Definition seeding_hint : string :=
  "Ejecuta 'poetry run python scripts/setup_db.py' primero.".

Definition get_db_connection : M conn :=
  fun w =>
    match db_file w with
    | None =>
        raise (FileNotFoundError
                 ("Base de datos no encontrada en " ++ db_path w ++ ". "
                  ++ seeding_hint)) w
    | Some _ => connect w
    end.

Definition PRIORIDADES : list string := ["baja"; "media"; "alta"; "urgente"].
Definition ESTADOS : list string := ["abierto"; "cerrado"].
Definition CRITERIOS : list string := ["estado"; "prioridad"; "cliente"].
Definition CAMPOS : list string := ["asunto"; "descripcion"; "ambos"].

(** [min(max(1, limite), 100)] *)
Definition clamp (limite : Z) : Z := Z.min (Z.max 1 limite) 100.

Definition prioridad_invalida (prioridad : string) : exn :=
  ValueError ("Prioridad inv" ++ a_acute ++ "lida: " ++ prioridad ++ ". "
              ++ "Usa: baja, media, alta, urgente").

Definition estado_invalido (estado : string) : exn :=
  ValueError ("Estado inv" ++ a_acute ++ "lido: " ++ estado ++ ". "
              ++ "Usa: abierto, cerrado").

Definition criterio_invalido (agrupar_por : string) : exn :=
  ValueError ("Criterio inv" ++ a_acute ++ "lido: " ++ agrupar_por ++ ". "
              ++ "Usa: estado, prioridad, cliente").

Definition campo_invalido (campo : string) : exn :=
  ValueError ("Campo inv" ++ a_acute ++ "lido: " ++ campo ++ ". "
              ++ "Usa: asunto, descripcion, ambos").

(** The loop that turns the fetched rows into dictionaries. *)
Definition rows_to_tickets (columns : list string) (rows : list row)
  : list record :=
  map (zip_dict columns) rows.

Definition consultar_tickets
  (prioridad estado : option string) (limite : Z) : M (list record) :=
  conn <- get_db_connection ;;
  let query := Sql.One_eq_one in
  query <-
    match truthy prioridad with
    | Some prioridad =>
        let prioridad := Str.lower prioridad in
        if negb (Str.mem prioridad PRIORIDADES) then
          (close conn ;; raise (prioridad_invalida prioridad))
        else ret (Sql.And query (Sql.Eq "prioridad" (VText prioridad)))
    | None => ret query
    end ;;
  query <-
    match truthy estado with
    | Some estado =>
        let estado := Str.lower estado in
        if negb (Str.mem estado ESTADOS) then
          (close conn ;; raise (estado_invalido estado))
        else ret (Sql.And query (Sql.Eq "estado" (VText estado)))
    | None => ret query
    end ;;
  let limite := clamp limite in
  cur <- execute conn (Sql.SelectAll query limite) ;;
  let columns := description cur in
  let rows := fetchall cur in
  let tickets := rows_to_tickets columns rows in
  close conn ;;
  ret tickets.

Record metricas : Type := mkMetricas {
  tickets_abiertos : value;
  tickets_urgentes : value;
  top_5_clientes : list record
}.

Record estadisticas : Type := mkEstadisticas {
  total_tickets : value;
  distribucion : list (value * value);
  metricas_adicionales : metricas
}.

(** [for row in rows: distribucion[row[0]] = row[1]] *)
Definition fill_distribucion (rows : list row) : list (value * value) :=
  fold_left (fun d r => Dict.set value_eqb (item r 0) (item r 1) d) rows [].

Definition obtener_estadisticas (agrupar_por : string) : M estadisticas :=
  conn <- get_db_connection ;;
  let agrupar_por := Str.lower agrupar_por in
  if negb (Str.mem agrupar_por CRITERIOS) then
    (close conn ;; raise (criterio_invalido agrupar_por))
  else
    cur <- execute conn (Sql.SelectCount None) ;;
    total_tickets <- subscript (fetchone cur) 0 ;;
    cur <- execute conn (Sql.SelectGroupCount agrupar_por None) ;;
    let distribucion := fill_distribucion (fetchall cur) in
    cur <- execute conn
             (Sql.SelectCount (Some (Sql.Eq "estado" (VText "abierto")))) ;;
    tickets_abiertos <- subscript (fetchone cur) 0 ;;
    cur <- execute conn
             (Sql.SelectCount (Some (Sql.Eq "prioridad" (VText "urgente")))) ;;
    tickets_urgentes <- subscript (fetchone cur) 0 ;;
    cur <- execute conn (Sql.SelectGroupCount "cliente" (Some 5)) ;;
    let top_clientes :=
      map (fun r => [("cliente", item r 0); ("tickets", item r 1)])
          (fetchall cur) in
    close conn ;;
    ret (mkEstadisticas total_tickets distribucion
           (mkMetricas tickets_abiertos tickets_urgentes top_clientes)).

Definition buscar_tickets_por_texto
  (busqueda campo : string) (limite : Z) : M (list record) :=
  conn <- get_db_connection ;;
  let campo := Str.lower campo in
  if negb (Str.mem campo CAMPOS) then
    (close conn ;; raise (campo_invalido campo))
  else
    let query :=
      if String.eqb campo "ambos" then
        let pattern := "%" ++ busqueda ++ "%" in
        Sql.SelectAll
          (Sql.Or (Sql.Like "asunto" (VText pattern))
                  (Sql.Like "descripcion" (VText pattern)))
          (clamp limite)
      else
        Sql.SelectAll (Sql.Like campo (VText ("%" ++ busqueda ++ "%")))
                      (clamp limite) in
    cur <- execute conn query ;;
    let columns := description cur in
    let rows := fetchall cur in
    let tickets := rows_to_tickets columns rows in
    close conn ;;
    ret tickets.

(* ------------------------------------------------------------------ *)
(** ** scripts/setup_db.py: creation of the store *)




(* ------------------------------------------------------------------ *)
(** ** A small store used in the examples *)

Module Demo.

Definition t1 : ticket :=
  mkTicket 1 "TechCorp S.A." "Error 500 en endpoint de pagos"
    (Some "URGENTE: el cliente reporta impacto en produccion.")
    "abierto" "urgente" "2026-01-03T10:15:00" "2026-01-03T12:15:00".

Definition t2 : ticket :=
  mkTicket 2 "Innovatech" "Certificado SSL expirado"
    (Some "Consulta de cliente. Sin impacto en servicio.")
    "cerrado" "baja" "2026-01-01T08:00:00" "2026-01-01T09:00:00".

Definition t3 : ticket :=
  mkTicket 3 "TechCorp S.A." "API Gateway retornando 503"
    (Some "Prioridad Alta: fallo tras el cambio en la pasarela de pagos.")
    "abierto" "alta" "2026-01-02T23:59:59" "2026-01-03T01:00:00".

Definition t4 : ticket :=
  mkTicket 4 "CloudBase Inc." "Webhook no recibiendo eventos" None
    "abierto" "media" "2026-01-02T07:30:00" "2026-01-02T08:30:00".

Definition rows : list ticket := [t1; t2; t3; t4].

Definition path : string := "/srv/mcp/soporte.db".

(** The seeded store, no connection open, nothing executed yet. *)
Definition seeded : world :=
  mkWorld path (Some (TicketsTable rows)) 0%nat [] [].

(** No file at DB_PATH. *)
Definition missing : world := mkWorld path None 0%nat [] [].

(** A file at DB_PATH that holds no table [tickets]. *)
Definition unseeded : world := mkWorld path (Some NoTicketsTable) 0%nat [] [].

(** A search text of 49999 '%': between two more '%' it is a pattern of
    50001 bytes, one that matches every text. *)
Definition comodines : string :=
  Str.replicate (N.to_nat 49999) Str.percent.







End Demo.

(* ------------------------------------------------------------------ *)
(** ** Specification-side vocabulary *)


(** The row test of the listing, read off its two optional filters. *)
Definition passes (prioridad_f estado_f : option string) (t : ticket) : bool :=
  match truthy prioridad_f with
  | Some p => String.eqb (prioridad t) (Str.lower p)
  | None => true
  end &&
  match truthy estado_f with
  | Some e => String.eqb (estado t) (Str.lower e)
  | None => true
  end.

(** The row tests of the text search. *)
Definition in_asunto (busqueda : string) (t : ticket) : bool :=
  Sql.like_text ("%" ++ busqueda ++ "%") (asunto t).

Definition in_descripcion (busqueda : string) (t : ticket) : bool :=
  match descripcion t with
  | Some d => Sql.like_text ("%" ++ busqueda ++ "%") d
  | None => false
  end.

(** SQLite accepts the pattern of a search for [busqueda]. *)
Definition fits (busqueda : string) : bool :=
  Sql.pattern_fits ("%" ++ busqueda ++ "%").

(** SQLite binds the pattern of a search for [busqueda]. *)
Definition binds (busqueda : string) : bool :=
  (Str.utf8_bytes ("%" ++ busqueda ++ "%") <=? Sql.max_length)%N.

(** The search for [busqueda] on the table [rows] does not raise: LIKE
    accepts its pattern, or the pattern can be bound and there is no row
    to evaluate it on. *)
Definition searchable (busqueda : string) (rows : list ticket) : bool :=
  fits busqueda ||
  (binds busqueda && match rows with [] => true | _ :: _ => false end).

(** What the search for [busqueda] on the table [rows] raises, if
    anything. *)
Definition search_error (busqueda : string) (rows : list ticket)
  : option exn :=
  match bind_param (VText ("%" ++ busqueda ++ "%")) with
  | Some e => Some e
  | None =>
      if fits busqueda then None
      else match rows with
           | [] => None
           | _ :: _ =>
               Some (OperationalError "LIKE or GLOB pattern too complex")
           end
  end.

Definition found (busqueda campo : string) (t : ticket) : bool :=
  if String.eqb campo "ambos" then
    in_asunto busqueda t || in_descripcion busqueda t
  else if String.eqb campo "asunto" then in_asunto busqueda t
  else in_descripcion busqueda t.

(** The rows a SELECT * of the tools yields: the rows that pass, newest
    first, cut at the clamped limit. *)
Definition page (test : ticket -> bool) (limite : Z) (rows : list ticket)
  : list ticket :=
  firstn (Z.to_nat (clamp limite))
         (Sql.order_by_fecha_desc (filter test rows)).

(** Newest first: every ticket is at least as recent as all that follow. *)
Definition newest_first (l : list ticket) : Prop :=
  StronglySorted
    (fun a b => String.leb (fecha_creacion b) (fecha_creacion a) = true) l.

(** The world after a tool opened its connection, ran [stmts] and closed
    the connection again. *)
Definition after_queries (w : world) (stmts : list Sql.stmt) : world :=
  mkWorld (db_path w) (db_file w) (S (next_conn w))
          (remove Nat.eq_dec (next_conn w) (open_conns w))
          (executed w ++ stmts).

(** The world after a tool opened its connection and closed it without
    running anything. *)
Definition after_rejection (w : world) : world :=
  mkWorld (db_path w) (db_file w) (S (next_conn w))
          (remove Nat.eq_dec (next_conn w) (open_conns w))
          (executed w).

Definition raises_ValueError {A : Type} (r : outcome A * world) : Prop :=
  match fst r with
  | Raise (ValueError _) => True
  | _ => False
  end.

Definition raises_FileNotFoundError {A : Type} (r : outcome A * world) : Prop :=
  match fst r with
  | Raise (FileNotFoundError _) => True
  | _ => False
  end.

Definition sum_Z (l : list Z) : Z := fold_right Z.add 0 l.

(** A filter argument the listing does not reject: absent, empty, or
    valid. *)
Definition accepted (allowed : list string) (o : option string) : Prop :=
  match truthy o with
  | None => True
  | Some s => Str.mem (Str.lower s) allowed = true
  end.

(** The WHERE clause the listing builds from its two filters. *)
Definition listing_where (prioridad_f estado_f : option string) : Sql.expr :=
  let query := Sql.One_eq_one in
  let query :=
    match truthy prioridad_f with
    | Some p => Sql.And query (Sql.Eq "prioridad" (VText (Str.lower p)))
    | None => query
    end in
  match truthy estado_f with
  | Some e => Sql.And query (Sql.Eq "estado" (VText (Str.lower e)))
  | None => query
  end.

(** The statement the text search builds. *)
Definition search_stmt (busqueda campo : string) (limite : Z) : Sql.stmt :=
  let pattern := VText ("%" ++ busqueda ++ "%") in
  if String.eqb campo "ambos" then
    Sql.SelectAll
      (Sql.Or (Sql.Like "asunto" pattern) (Sql.Like "descripcion" pattern))
      (clamp limite)
  else Sql.SelectAll (Sql.Like campo pattern) (clamp limite).

(** The world right after [get_db_connection] succeeded. *)
Definition opened (w : world) : world :=
  mkWorld (db_path w) (db_file w) (S (next_conn w))
          (next_conn w :: open_conns w) (executed w).

(** The world after one more statement ran. *)
Definition logged (w : world) (s : Sql.stmt) : world :=
  mkWorld (db_path w) (db_file w) (next_conn w) (open_conns w)
          (executed w ++ [s]).

(** The five statements of [obtener_estadisticas], in the order sent. *)
Definition stats_stmts (agrupar_por : string) : list Sql.stmt :=
  [Sql.SelectCount None;
   Sql.SelectGroupCount agrupar_por None;
   Sql.SelectCount (Some (Sql.Eq "estado" (VText "abierto")));
   Sql.SelectCount (Some (Sql.Eq "prioridad" (VText "urgente")));
   Sql.SelectGroupCount "cliente" (Some 5)].

(** Number of rows on which a test holds, as COUNT( * ) reports it. *)
Definition count_where (test : ticket -> bool) (rows : list ticket) : value :=
  VInt (Z.of_nat (List.length (filter test rows))).

Definition is_abierto (t : ticket) : bool := String.eqb (estado t) "abierto".
Definition is_urgente (t : ticket) : bool := String.eqb (prioridad t) "urgente".

(** The groups of GROUP BY col ORDER BY cantidad DESC. *)
Definition groups_of (col : string) (rows : list ticket) : list (value * Z) :=
  Sql.sort Sql.bigger_first
    (Sql.group_count (map (column_or_null col) rows)).

(** The exception is a ValueError whose message contains the text [v]. *)
Definition names (v : string) (e : exn) : Prop :=
  match e with
  | ValueError msg => Str.contains v msg = true
  | _ => False
  end.

(** The row test of a search in both fields. *)
Definition in_either (busqueda : string) (t : ticket) : bool :=
  in_asunto busqueda t || in_descripcion busqueda t.

(** PRIMARY KEY: no two rows of the table share an [id]. *)
Definition unique_ids (rows : list ticket) : Prop := NoDup (map id rows).

(** The store file and its path are the same in both worlds. *)
Definition same_store (w w' : world) : Prop :=
  db_file w' = db_file w /\ db_path w' = db_path w.

(** Equality of two texts up to ASCII case. *)
Fixpoint eq_nocase (a b : string) : bool :=
  match a, b with
  | EmptyString, EmptyString => true
  | String c a', String d b' =>
      Ascii.eqb (Str.fold_ascii c) (Str.fold_ascii d) && eq_nocase a' b'
  | _, _ => false
  end.

(** Number of rows whose column [col] holds the value [k]. *)
Definition count_value (col : string) (k : value) (rows : list ticket) : Z :=
  Z.of_nat
    (List.length
       (filter (fun t => value_eqb (column_or_null col t) k) rows)).

(** What a lookup of [k] in a table of counts must give when [k] occurs
    [c] times: the count, and no entry when there is none. *)
Definition entry_for (c : Z) : option value :=
  if 0 <? c then Some (VInt c) else None.

(** Counts in descending order. *)
Definition descending (counts : list Z) : Prop :=
  StronglySorted (fun a b => b <= a) counts.



Definition has_descripcion (t : ticket) : bool :=
  match descripcion t with
  | Some _ => true
  | None => false
  end.


Definition returns {A : Type} (r : outcome A * world) : Prop :=
  match fst r with
  | Return _ => True
  | Raise _ => False
  end.


(** Every open handle was handed out before: it is below the next fresh
    one. *)
Definition fresh_handles (w : world) : Prop :=
  Forall (fun c => (c < next_conn w)%nat) (open_conns w).

(** A statement names existing columns only and, when it has a LIMIT
    parameter, one between 1 and 100 (5 for the top clients). *)
Definition well_formed_stmt (s : Sql.stmt) : Prop :=
  Sql.stmt_ok s = true /\
  match s with
  | Sql.SelectAll _ n => 1 <= n <= 100
  | Sql.SelectCount _ => True
  | Sql.SelectGroupCount col n =>
      In col CRITERIOS /\ (n = None \/ n = Some 5)
  end.

(** The message of [get_db_connection] in world [w]. *)
Definition not_found (w : world) : exn :=
  FileNotFoundError
    ("Base de datos no encontrada en " ++ db_path w ++ ". " ++ seeding_hint).

(** Closes a goal in which the connection opened on [w] was removed from
    the open handles again. *)
Ltac closed_again w :=
  unfold after_queries, after_rejection, logged, opened; simpl;
  destruct (Nat.eq_dec (next_conn w) (next_conn w));
  [reflexivity | contradiction].

(* ------------------------------------------------------------------ *)
(** ** Facts about strings and values *)

Lemma value_eqb_spec (a b : value) : reflect (a = b) (value_eqb a b).
Proof.
  destruct a as [|x|x], b as [|y|y]; simpl; try (constructor; congruence).
  - destruct (Z.eqb_spec x y); constructor; congruence.
  - destruct (String.eqb_spec x y); constructor; congruence.
Qed.

Lemma mem_In (x : string) (l : list string) :
  Str.mem x l = true <-> In x l.
Proof.
  unfold Str.mem. rewrite existsb_exists. split.
  - intros [y [Hy He]]. apply String.eqb_eq in He. now subst.
  - intros H. exists x. split; [assumption | apply String.eqb_refl].
Qed.

Lemma ascii_compare_trans_le (a b c : ascii) :
  Ascii.compare a b <> Gt -> Ascii.compare b c <> Gt ->
  Ascii.compare a c <> Gt.
Proof.
  unfold Ascii.compare. rewrite !N.compare_le_iff. lia.
Qed.

Lemma ascii_compare_eq (a b : ascii) : Ascii.compare a b = Eq -> a = b.
Proof.
  unfold Ascii.compare. intros H. apply N.compare_eq in H.
  rewrite <- (ascii_N_embedding a), <- (ascii_N_embedding b). now rewrite H.
Qed.

Lemma ascii_compare_lt_trans (a b c : ascii) :
  Ascii.compare a b = Lt -> Ascii.compare b c = Lt -> Ascii.compare a c = Lt.
Proof.
  unfold Ascii.compare. rewrite !N.compare_lt_iff. lia.
Qed.

Lemma string_compare_trans_le (a : string) :
  forall b c, String.compare a b <> Gt -> String.compare b c <> Gt ->
              String.compare a c <> Gt.
Proof.
  induction a as [|x a IH]; intros [|y b] [|z c]; simpl; try congruence.
  destruct (Ascii.compare x y) eqn:Exy; try congruence;
    destruct (Ascii.compare y z) eqn:Eyz; try congruence; intros Hab Hbc.
  - apply ascii_compare_eq in Exy, Eyz. subst.
    replace (Ascii.compare z z) with Eq
      by (symmetry; unfold Ascii.compare; apply N.compare_refl).
    now apply IH with b.
  - apply ascii_compare_eq in Exy. subst. now rewrite Eyz.
  - apply ascii_compare_eq in Eyz. subst. now rewrite Exy.
  - now rewrite (ascii_compare_lt_trans _ _ _ Exy Eyz).
Qed.

Lemma string_leb_trans (a b c : string) :
  String.leb a b = true -> String.leb b c = true -> String.leb a c = true.
Proof.
  unfold String.leb. intros Hab Hbc.
  assert (Ha : String.compare a b <> Gt) by (destruct (String.compare a b); congruence).
  assert (Hb : String.compare b c <> Gt) by (destruct (String.compare b c); congruence).
  pose proof (string_compare_trans_le a b c Ha Hb) as H.
  destruct (String.compare a c); congruence.
Qed.

(* ------------------------------------------------------------------ *)
(** ** Facts about the sort behind ORDER BY *)

Section SortFacts.
Context {A : Type} (before : A -> A -> bool).
Hypothesis before_total : forall a b, before a b = true \/ before b a = true.
Hypothesis before_trans :
  forall a b c, before a b = true -> before b c = true -> before a c = true.

Lemma insert_perm (x : A) (l : list A) :
  Permutation (Sql.insert before x l) (x :: l).
Proof.
  induction l as [|y l IH]; simpl; [reflexivity|].
  destruct (before x y); [reflexivity|].
  rewrite IH. apply perm_swap.
Qed.

Lemma sort_perm (l : list A) : Permutation (Sql.sort before l) l.
Proof.
  induction l as [|x l IH]; simpl; [reflexivity|].
  rewrite insert_perm. now constructor.
Qed.

Lemma sort_In (l : list A) (x : A) : In x (Sql.sort before l) <-> In x l.
Proof.
  split; apply Permutation_in; [apply sort_perm | symmetry; apply sort_perm].
Qed.

Lemma sort_length (l : list A) :
  List.length (Sql.sort before l) = List.length l.
Proof. apply Permutation_length, sort_perm. Qed.

Lemma sort_NoDup (l : list A) : NoDup l -> NoDup (Sql.sort before l).
Proof.
  intros H. eapply Permutation_NoDup; [symmetry; apply sort_perm | exact H].
Qed.

Lemma insert_sorted (x : A) (l : list A) :
  StronglySorted (fun a b => before a b = true) l ->
  StronglySorted (fun a b => before a b = true) (Sql.insert before x l).
Proof.
  induction 1 as [|y l Hs IH Hy]; simpl.
  - repeat constructor.
  - destruct (before x y) eqn:E.
    + constructor; [now constructor|].
      constructor; [exact E|].
      eapply Forall_impl; [|exact Hy]. intros z Hz. now apply before_trans with y.
    + constructor; [exact IH|].
      apply Forall_forall. intros z Hz.
      apply (Permutation_in _ (insert_perm x l)) in Hz.
      destruct Hz as [<-|Hz].
      * destruct (before_total x y) as [H|H]; congruence.
      * rewrite Forall_forall in Hy. now apply Hy.
Qed.

Lemma sort_sorted (l : list A) :
  StronglySorted (fun a b => before a b = true) (Sql.sort before l).
Proof.
  induction l as [|x l IH]; simpl; [constructor | now apply insert_sorted].
Qed.
End SortFacts.

Lemma In_firstn {A : Type} (n : nat) (l : list A) (x : A) :
  In x (firstn n l) -> In x l.
Proof.
  intros H. rewrite <- (firstn_skipn n l). apply in_or_app. now left.
Qed.


Lemma firstn_NoDup {A : Type} (n : nat) (l : list A) :
  NoDup l -> NoDup (firstn n l).
Proof.
  intros H. rewrite <- (firstn_skipn n l) in H.
  now apply NoDup_app_remove_r in H.
Qed.

Lemma newer_first_total (a b : ticket) :
  Sql.newer_first a b = true \/ Sql.newer_first b a = true.
Proof. unfold Sql.newer_first. apply String.leb_total. Qed.

Lemma newer_first_trans (a b c : ticket) :
  Sql.newer_first a b = true -> Sql.newer_first b c = true ->
  Sql.newer_first a c = true.
Proof.
  unfold Sql.newer_first. intros H1 H2. eapply string_leb_trans; eassumption.
Qed.

Lemma order_by_newest_first (l : list ticket) :
  newest_first (Sql.order_by_fecha_desc l).
Proof.
  apply (sort_sorted Sql.newer_first newer_first_total newer_first_trans).
Qed.

(* ------------------------------------------------------------------ *)
(** ** The primitive operations on the world *)

Lemma get_db_connection_found (w : world) (db : database) :
  db_file w = Some db ->
  get_db_connection w = (Return (next_conn w), opened w).
Proof. intros H. unfold get_db_connection. now rewrite H. Qed.

Lemma get_db_connection_missing (w : world) :
  db_file w = None ->
  get_db_connection w =
    (Raise (FileNotFoundError
              ("Base de datos no encontrada en " ++ db_path w ++ ". "
               ++ seeding_hint)), w).
Proof. intros H. unfold get_db_connection. now rewrite H. Qed.

Lemma execute_on_table (w : world) (rows : list ticket) (c : conn)
      (s : Sql.stmt) :
  db_file w = Some (TicketsTable rows) ->
  In c (open_conns w) ->
  Sql.stmt_ok s = true ->
  bind_parameters (Sql.params s) = None ->
  Sql.raises_on s rows = false ->
  execute c s w =
    (Return (mkCursor (Sql.result_columns s) (Sql.run s rows)), logged w s).
Proof.
  intros Hdb Hc Hok Hb Hno. unfold execute, logged.
  assert (E : existsb (Nat.eqb c) (open_conns w) = true).
  { apply existsb_exists. exists c. split; [exact Hc | apply Nat.eqb_refl]. }
  now rewrite E, Hdb, Hok, Hb, Hno.
Qed.

Lemma execute_too_complex (w : world) (rows : list ticket) (c : conn)
      (s : Sql.stmt) :
  db_file w = Some (TicketsTable rows) ->
  In c (open_conns w) ->
  Sql.stmt_ok s = true ->
  bind_parameters (Sql.params s) = None ->
  Sql.raises_on s rows = true ->
  execute c s w =
    (Raise (OperationalError "LIKE or GLOB pattern too complex"), w).
Proof.
  intros Hdb Hc Hok Hb Hyes. unfold execute.
  assert (E : existsb (Nat.eqb c) (open_conns w) = true).
  { apply existsb_exists. exists c. split; [exact Hc | apply Nat.eqb_refl]. }
  now rewrite E, Hdb, Hok, Hb, Hyes.
Qed.

Lemma execute_unbound (w : world) (rows : list ticket) (c : conn)
      (s : Sql.stmt) (e : exn) :
  db_file w = Some (TicketsTable rows) ->
  In c (open_conns w) ->
  Sql.stmt_ok s = true ->
  bind_parameters (Sql.params s) = Some e ->
  execute c s w = (Raise e, w).
Proof.
  intros Hdb Hc Hok Hb. unfold execute.
  assert (E : existsb (Nat.eqb c) (open_conns w) = true).
  { apply existsb_exists. exists c. split; [exact Hc | apply Nat.eqb_refl]. }
  now rewrite E, Hdb, Hok, Hb.
Qed.

Lemma allowed_value_binds (allowed : list string) (x : string) :
  Forall (fun a => bind_param (VText a) = None) allowed ->
  Str.mem x allowed = true -> bind_param (VText x) = None.
Proof.
  intros Hall Hx. apply mem_In in Hx. rewrite Forall_forall in Hall.
  now apply Hall.
Qed.

Lemma PRIORIDADES_bind :
  Forall (fun a => bind_param (VText a) = None) PRIORIDADES.
Proof. repeat constructor. Qed.

Lemma ESTADOS_bind : Forall (fun a => bind_param (VText a) = None) ESTADOS.
Proof. repeat constructor. Qed.

Lemma existsb_never {A : Type} (f : A -> bool) (l : list A) :
  (forall x, f x = false) -> existsb f l = false.
Proof. intros H. induction l; simpl; [reflexivity | now rewrite H]. Qed.

Lemma execute_without_table (w : world) (c : conn) (s : Sql.stmt) :
  db_file w = Some NoTicketsTable ->
  In c (open_conns w) ->
  execute c s w = (Raise (OperationalError "no such table: tickets"), w).
Proof.
  intros Hdb Hc. unfold execute.
  assert (E : existsb (Nat.eqb c) (open_conns w) = true).
  { apply existsb_exists. exists c. split; [exact Hc | apply Nat.eqb_refl]. }
  now rewrite E, Hdb.
Qed.

(* ------------------------------------------------------------------ *)
(** ** What the statements of the tools select *)

Lemma ticket_dict_rows (ts : list ticket) :
  rows_to_tickets ticket_columns (map ticket_row ts) = map ticket_dict ts.
Proof. unfold rows_to_tickets. now rewrite map_map. Qed.

Lemma clamp_range (limite : Z) : 1 <= clamp limite <= 100.
Proof. unfold clamp. lia. Qed.

Lemma limit_rows_clamp {A : Type} (limite : Z) (l : list A) :
  Sql.limit_rows (clamp limite) l = firstn (Z.to_nat (clamp limite)) l.
Proof.
  unfold Sql.limit_rows. pose proof (clamp_range limite) as H.
  destruct (Z.ltb_spec (clamp limite) 0); [lia | reflexivity].
Qed.

Lemma listing_where_ok (p e : option string) :
  Sql.expr_ok (listing_where p e) = true.
Proof.
  unfold listing_where. destruct (truthy p), (truthy e); reflexivity.
Qed.

Lemma sql_eq_text (a b : string) :
  Sql.sql_eq (VText a) (VText b) = Sql.tv_of_bool (String.eqb a b).
Proof. reflexivity. Qed.

Lemma listing_where_holds (p e : option string) (t : ticket) :
  Sql.holds (listing_where p e) t = passes p e t.
Proof.
  unfold listing_where, passes, Sql.holds.
  destruct (truthy p) as [p'|], (truthy e) as [e'|]; simpl;
    unfold column_or_null; simpl; rewrite ?sql_eq_text;
    repeat match goal with
           | |- context [String.eqb ?a ?b] => destruct (String.eqb a b)
           end; reflexivity.
Qed.

Lemma listing_binds (p e : option string) (limite : Z) :
  accepted PRIORIDADES p -> accepted ESTADOS e ->
  bind_parameters (Sql.params (Sql.SelectAll (listing_where p e) limite))
  = None.
Proof.
  unfold accepted, listing_where. intros Hp He.
  destruct (truthy p) as [p'|], (truthy e) as [e'|];
    cbn [Sql.params Sql.expr_params app bind_parameters];
    rewrite ?(allowed_value_binds _ _ PRIORIDADES_bind Hp),
            ?(allowed_value_binds _ _ ESTADOS_bind He); reflexivity.
Qed.

Lemma listing_never_raises (p e : option string) (limite : Z)
      (rows : list ticket) :
  Sql.raises_on (Sql.SelectAll (listing_where p e) limite) rows = false.
Proof.
  unfold Sql.raises_on. apply existsb_never. intros t.
  unfold listing_where.
  destruct (truthy p), (truthy e); simpl; now rewrite ?andb_false_r.
Qed.

Lemma run_listing (p e : option string) (limite : Z) (rows : list ticket) :
  Sql.run (Sql.SelectAll (listing_where p e) (clamp limite)) rows =
  map ticket_row (page (passes p e) limite rows).
Proof.
  unfold Sql.run, page. rewrite limit_rows_clamp.
  now rewrite (filter_ext _ _ (listing_where_holds p e)).
Qed.

(* ------------------------------------------------------------------ *)
(** ** Runs of [consultar_tickets] *)

Lemma consultar_tickets_run (w : world) (rows : list ticket)
      (p e : option string) (limite : Z) :
  db_file w = Some (TicketsTable rows) ->
  accepted PRIORIDADES p -> accepted ESTADOS e ->
  consultar_tickets p e limite w =
    (Return (map ticket_dict (page (passes p e) limite rows)),
     after_queries w [Sql.SelectAll (listing_where p e) (clamp limite)]).
Proof.
  intros Hdb Hp He.
  assert (Hex : execute (next_conn w)
                  (Sql.SelectAll (listing_where p e) (clamp limite)) (opened w)
                = (Return (mkCursor ticket_columns
                             (map ticket_row (page (passes p e) limite rows))),
                   logged (opened w)
                     (Sql.SelectAll (listing_where p e) (clamp limite)))).
  { rewrite (execute_on_table (opened w) rows);
      [ | exact Hdb | now left | apply listing_where_ok
        | now apply listing_binds | apply listing_never_raises ].
    cbn [Sql.result_columns]. now rewrite <- run_listing. }
  unfold consultar_tickets, bind.
  rewrite (get_db_connection_found w _ Hdb).
  unfold accepted in Hp, He. unfold listing_where in Hex |- *.
  destruct (truthy p) as [p'|]; [rewrite Hp|];
    (destruct (truthy e) as [e'|]; [rewrite He|]); simpl;
    unfold ret; rewrite Hex; simpl;
    rewrite ticket_dict_rows; closed_again w.
Qed.

Lemma consultar_tickets_bad_prioridad (w : world) (db : database)
      (prioridad estado : option string) (limite : Z) (p : string) :
  db_file w = Some db ->
  truthy prioridad = Some p ->
  Str.mem (Str.lower p) PRIORIDADES = false ->
  consultar_tickets prioridad estado limite w =
    (Raise (prioridad_invalida (Str.lower p)), after_rejection w).
Proof.
  intros Hdb Hp Hbad. unfold consultar_tickets, bind.
  rewrite (get_db_connection_found w _ Hdb), Hp, Hbad. simpl.
  closed_again w.
Qed.

Lemma consultar_tickets_bad_estado (w : world) (db : database)
      (prioridad estado : option string) (limite : Z) (e : string) :
  db_file w = Some db ->
  accepted PRIORIDADES prioridad ->
  truthy estado = Some e ->
  Str.mem (Str.lower e) ESTADOS = false ->
  consultar_tickets prioridad estado limite w =
    (Raise (estado_invalido (Str.lower e)), after_rejection w).
Proof.
  intros Hdb Hp He Hbad. unfold consultar_tickets, bind.
  rewrite (get_db_connection_found w _ Hdb), He, Hbad.
  unfold accepted in Hp.
  destruct (truthy prioridad) as [p'|]; [rewrite Hp|]; simpl;
    closed_again w.
Qed.

Lemma consultar_tickets_missing (w : world)
      (prioridad estado : option string) (limite : Z) :
  db_file w = None ->
  consultar_tickets prioridad estado limite w =
    (Raise (FileNotFoundError
              ("Base de datos no encontrada en " ++ db_path w ++ ". "
               ++ seeding_hint)), w).
Proof.
  intros Hdb. unfold consultar_tickets, bind.
  now rewrite (get_db_connection_missing w Hdb).
Qed.

(* ------------------------------------------------------------------ *)
(** ** Runs of [buscar_tickets_por_texto] *)

Lemma campo_cases (campo : string) :
  Str.mem campo CAMPOS = true ->
  campo = "asunto" \/ campo = "descripcion" \/ campo = "ambos".
Proof.
  intros H. apply mem_In in H. simpl in H.
  destruct H as [H|[H|[H|[]]]]; subst; auto.
Qed.

Lemma search_stmt_ok (busqueda campo : string) (limite : Z) :
  Str.mem campo CAMPOS = true ->
  Sql.stmt_ok (search_stmt busqueda campo limite) = true.
Proof.
  intros H. destruct (campo_cases campo H) as [->|[->| ->]]; reflexivity.
Qed.

Lemma search_holds_asunto (busqueda : string) (t : ticket) :
  Sql.holds (Sql.Like "asunto" (VText ("%" ++ busqueda ++ "%"))) t
  = in_asunto busqueda t.
Proof.
  unfold Sql.holds, in_asunto.
  change (Sql.eval (Sql.Like "asunto" (VText ("%" ++ busqueda ++ "%"))) t)
    with (Sql.tv_of_bool (Sql.like_text ("%" ++ busqueda ++ "%") (asunto t))).
  now destruct (Sql.like_text _ (asunto t)).
Qed.

Lemma search_holds_descripcion (busqueda : string) (t : ticket) :
  Sql.holds (Sql.Like "descripcion" (VText ("%" ++ busqueda ++ "%"))) t
  = in_descripcion busqueda t.
Proof.
  unfold Sql.holds, in_descripcion.
  change (Sql.eval (Sql.Like "descripcion" (VText ("%" ++ busqueda ++ "%"))) t)
    with (Sql.sql_like (nullable (descripcion t))
                       (VText ("%" ++ busqueda ++ "%"))).
  destruct (descripcion t) as [d|]; [|reflexivity].
  change (Sql.sql_like (nullable (Some d)) (VText ("%" ++ busqueda ++ "%")))
    with (Sql.tv_of_bool (Sql.like_text ("%" ++ busqueda ++ "%") d)).
  now destruct (Sql.like_text _ d).
Qed.

Lemma search_holds_ambos (busqueda : string) (t : ticket) :
  Sql.holds (Sql.Or (Sql.Like "asunto" (VText ("%" ++ busqueda ++ "%")))
                    (Sql.Like "descripcion" (VText ("%" ++ busqueda ++ "%")))) t
  = in_asunto busqueda t || in_descripcion busqueda t.
Proof.
  rewrite <- search_holds_asunto, <- search_holds_descripcion.
  unfold Sql.holds. cbn [Sql.eval].
  repeat match goal with
         | |- context [Sql.sql_like ?a ?b] => destruct (Sql.sql_like a b)
         end; reflexivity.
Qed.

Lemma run_search (busqueda campo : string) (limite : Z) (rows : list ticket) :
  Str.mem campo CAMPOS = true ->
  Sql.run (search_stmt busqueda campo limite) rows =
  map ticket_row (page (found busqueda campo) limite rows).
Proof.
  intros H. unfold page.
  destruct (campo_cases campo H) as [->|[->| ->]];
    unfold search_stmt, found; simpl String.eqb; cbv iota;
    unfold Sql.run; rewrite limit_rows_clamp.
  - now rewrite (filter_ext _ _ (search_holds_asunto busqueda)).
  - now rewrite (filter_ext _ _ (search_holds_descripcion busqueda)).
  - now rewrite (filter_ext _ _ (search_holds_ambos busqueda)).
Qed.

Lemma existsb_const {A : Type} (b : bool) (l : list A) :
  existsb (fun _ => b) l = b && match l with [] => false | _ :: _ => true end.
Proof.
  destruct b.
  - destruct l; reflexivity.
  - now apply existsb_never.
Qed.

Lemma existsb_same {A : Type} (f g : A -> bool) (l : list A) :
  (forall x, f x = g x) -> existsb f l = existsb g l.
Proof.
  intros H. induction l as [|x l IH]; simpl; [reflexivity|].
  now rewrite H, IH.
Qed.

Lemma search_raises (busqueda campo : string) (limite : Z)
      (rows : list ticket) :
  Str.mem campo CAMPOS = true ->
  Sql.raises_on (search_stmt busqueda campo limite) rows
  = negb (fits busqueda) && match rows with [] => false | _ :: _ => true end.
Proof.
  intros H.
  assert (E : Sql.raises_on (search_stmt busqueda campo limite) rows
              = existsb (fun _ => negb (fits busqueda)) rows).
  { destruct (campo_cases campo H) as [->|[->| ->]];
      unfold search_stmt; simpl String.eqb; cbv iota;
      unfold Sql.raises_on; apply existsb_same; intros t;
      cbn [Sql.too_complex]; try reflexivity.
    change (Sql.like_raises (VText ("%" ++ busqueda ++ "%")))
      with (negb (fits busqueda)).
    destruct (negb (fits busqueda)); [reflexivity|].
    now rewrite andb_false_r. }
  rewrite E, existsb_const.
  destruct (fits busqueda), rows; reflexivity.
Qed.

Lemma search_binds (busqueda campo : string) (limite : Z) :
  bind_parameters (Sql.params (search_stmt busqueda campo limite))
  = bind_param (VText ("%" ++ busqueda ++ "%")).
Proof.
  unfold search_stmt.
  destruct (String.eqb campo "ambos");
    cbn [Sql.params Sql.expr_params app bind_parameters];
    destruct (bind_param (VText ("%" ++ busqueda ++ "%"))); reflexivity.
Qed.

Lemma bind_param_binds (busqueda : string) :
  bind_param (VText ("%" ++ busqueda ++ "%")) = None
  <-> binds busqueda = true.
Proof.
  unfold bind_param, binds, Sql.int_max, Sql.max_length.
  set (n := Str.utf8_bytes ("%" ++ busqueda ++ "%")).
  rewrite N.leb_le.
  destruct (N.ltb_spec 2147483647 n); [split; [discriminate | lia]|].
  destruct (N.ltb_spec 1000000000 n); [split; [discriminate | lia]|].
  split; [lia | reflexivity].
Qed.

Lemma fits_binds (busqueda : string) :
  fits busqueda = true -> binds busqueda = true.
Proof.
  unfold fits, binds, Sql.pattern_fits, Sql.max_like_pattern_length,
    Sql.max_length.
  rewrite !N.leb_le. lia.
Qed.

Lemma searchable_no_error (busqueda : string) (rows : list ticket) :
  searchable busqueda rows = true <-> search_error busqueda rows = None.
Proof.
  unfold searchable, search_error.
  pose proof (bind_param_binds busqueda) as Hb.
  pose proof (fits_binds busqueda) as Hf.
  destruct (bind_param (VText ("%" ++ busqueda ++ "%"))) as [e|].
  - destruct (binds busqueda).
    + discriminate (proj2 Hb eq_refl).
    + destruct (fits busqueda); [discriminate (Hf eq_refl)|].
      split; discriminate.
  - rewrite (proj1 Hb eq_refl).
    destruct (fits busqueda), rows; split; try reflexivity; discriminate.
Qed.

Lemma search_error_cases (busqueda : string) (rows : list ticket) (e : exn) :
  search_error busqueda rows = Some e ->
  e = OverflowError "string longer than INT_MAX bytes"
  \/ e = DataError "string or blob too big"
  \/ e = OperationalError "LIKE or GLOB pattern too complex".
Proof.
  unfold search_error, bind_param.
  destruct (Sql.int_max <? _)%N; [intros H; injection H as <-; auto|].
  destruct (Sql.max_length <? _)%N; [intros H; injection H as <-; auto|].
  destruct (fits busqueda); [discriminate|].
  destruct rows; [discriminate|]. intros H; injection H as <-; auto.
Qed.

Lemma buscar_tickets_por_texto_run (w : world) (rows : list ticket)
      (busqueda campo : string) (limite : Z) :
  db_file w = Some (TicketsTable rows) ->
  Str.mem (Str.lower campo) CAMPOS = true ->
  searchable busqueda rows = true ->
  buscar_tickets_por_texto busqueda campo limite w =
    (Return (map ticket_dict
               (page (found busqueda (Str.lower campo)) limite rows)),
     after_queries w [search_stmt busqueda (Str.lower campo) limite]).
Proof.
  intros Hdb Hc Hs. apply searchable_no_error in Hs.
  assert (Hb : bind_parameters
                 (Sql.params (search_stmt busqueda (Str.lower campo) limite))
               = None).
  { rewrite search_binds. unfold search_error in Hs.
    now destruct (bind_param (VText ("%" ++ busqueda ++ "%"))). }
  assert (Hno : Sql.raises_on (search_stmt busqueda (Str.lower campo) limite)
                              rows = false).
  { rewrite (search_raises _ _ _ _ Hc). unfold search_error in Hs.
    destruct (bind_param (VText ("%" ++ busqueda ++ "%"))); [discriminate|].
    destruct (fits busqueda); [reflexivity|].
    now destruct rows. }
  pose proof (execute_on_table (opened w) rows (next_conn w)
                (search_stmt busqueda (Str.lower campo) limite)
                Hdb (or_introl eq_refl)
                (search_stmt_ok busqueda _ limite Hc) Hb Hno) as Hex.
  rewrite (run_search _ _ _ _ Hc) in Hex.
  assert (Hcols : Sql.result_columns (search_stmt busqueda (Str.lower campo) limite)
                  = ticket_columns).
  { unfold search_stmt. now destruct (String.eqb _ "ambos"). }
  rewrite Hcols in Hex.
  unfold buscar_tickets_por_texto, bind.
  rewrite (get_db_connection_found w _ Hdb), Hc. cbn [negb]. cbv beta.
  change (if String.eqb (Str.lower campo) "ambos"
          then Sql.SelectAll
                 (Sql.Or (Sql.Like "asunto" (VText ("%" ++ busqueda ++ "%")))
                         (Sql.Like "descripcion" (VText ("%" ++ busqueda ++ "%"))))
                 (clamp limite)
          else Sql.SelectAll
                 (Sql.Like (Str.lower campo) (VText ("%" ++ busqueda ++ "%")))
                 (clamp limite))
    with (search_stmt busqueda (Str.lower campo) limite).
  rewrite Hex. simpl. rewrite ticket_dict_rows. closed_again w.
Qed.

Lemma buscar_tickets_por_texto_raises (w : world) (rows : list ticket)
      (busqueda campo : string) (limite : Z) (e : exn) :
  db_file w = Some (TicketsTable rows) ->
  Str.mem (Str.lower campo) CAMPOS = true ->
  search_error busqueda rows = Some e ->
  buscar_tickets_por_texto busqueda campo limite w = (Raise e, opened w).
Proof.
  intros Hdb Hc Hs.
  assert (Hex : execute (next_conn w)
                  (search_stmt busqueda (Str.lower campo) limite) (opened w)
                = (Raise e, opened w)).
  { unfold search_error in Hs.
    destruct (bind_param (VText ("%" ++ busqueda ++ "%"))) as [e'|] eqn:Hb.
    - injection Hs as <-.
      apply (execute_unbound (opened w) rows);
        [exact Hdb | now left | now apply search_stmt_ok |].
      now rewrite search_binds.
    - destruct (fits busqueda) eqn:Hf; [discriminate|].
      destruct rows as [|t rows']; [discriminate|]. injection Hs as <-.
      apply (execute_too_complex (opened w) (t :: rows'));
        [exact Hdb | now left | now apply search_stmt_ok
        | now rewrite search_binds |].
      rewrite (search_raises _ _ _ _ Hc), Hf. reflexivity. }
  unfold buscar_tickets_por_texto, bind.
  rewrite (get_db_connection_found w _ Hdb), Hc. cbn [negb]. cbv beta.
  change (if String.eqb (Str.lower campo) "ambos"
          then Sql.SelectAll
                 (Sql.Or (Sql.Like "asunto" (VText ("%" ++ busqueda ++ "%")))
                         (Sql.Like "descripcion" (VText ("%" ++ busqueda ++ "%"))))
                 (clamp limite)
          else Sql.SelectAll
                 (Sql.Like (Str.lower campo) (VText ("%" ++ busqueda ++ "%")))
                 (clamp limite))
    with (search_stmt busqueda (Str.lower campo) limite).
  now rewrite Hex.
Qed.

Lemma buscar_tickets_por_texto_bad_campo (w : world) (db : database)
      (busqueda campo : string) (limite : Z) :
  db_file w = Some db ->
  Str.mem (Str.lower campo) CAMPOS = false ->
  buscar_tickets_por_texto busqueda campo limite w =
    (Raise (campo_invalido (Str.lower campo)), after_rejection w).
Proof.
  intros Hdb Hbad. unfold buscar_tickets_por_texto, bind.
  rewrite (get_db_connection_found w _ Hdb), Hbad. simpl. closed_again w.
Qed.

Lemma buscar_tickets_por_texto_missing (w : world)
      (busqueda campo : string) (limite : Z) :
  db_file w = None ->
  buscar_tickets_por_texto busqueda campo limite w =
    (Raise (FileNotFoundError
              ("Base de datos no encontrada en " ++ db_path w ++ ". "
               ++ seeding_hint)), w).
Proof.
  intros Hdb. unfold buscar_tickets_por_texto, bind.
  now rewrite (get_db_connection_missing w Hdb).
Qed.

(* ------------------------------------------------------------------ *)
(** ** Runs of [obtener_estadisticas] *)

Lemma criterio_cases (g : string) :
  Str.mem g CRITERIOS = true ->
  g = "estado" \/ g = "prioridad" \/ g = "cliente".
Proof.
  intros H. apply mem_In in H. simpl in H.
  destruct H as [H|[H|[H|[]]]]; subst; auto.
Qed.

Lemma criterio_is_column (g : string) :
  Str.mem g CRITERIOS = true -> Sql.is_column g = true.
Proof.
  intros H. destruct (criterio_cases g H) as [->|[->| ->]]; reflexivity.
Qed.

Lemma holds_estado_abierto (t : ticket) :
  Sql.holds (Sql.Eq "estado" (VText "abierto")) t = is_abierto t.
Proof.
  unfold Sql.holds, is_abierto.
  change (Sql.eval (Sql.Eq "estado" (VText "abierto")) t)
    with (Sql.tv_of_bool (String.eqb (estado t) "abierto")).
  now destruct (String.eqb (estado t) "abierto").
Qed.

Lemma holds_prioridad_urgente (t : ticket) :
  Sql.holds (Sql.Eq "prioridad" (VText "urgente")) t = is_urgente t.
Proof.
  unfold Sql.holds, is_urgente.
  change (Sql.eval (Sql.Eq "prioridad" (VText "urgente")) t)
    with (Sql.tv_of_bool (String.eqb (prioridad t) "urgente")).
  now destruct (String.eqb (prioridad t) "urgente").
Qed.

Lemma run_count_abierto (rows : list ticket) :
  Sql.run (Sql.SelectCount (Some (Sql.Eq "estado" (VText "abierto")))) rows
  = [[count_where is_abierto rows]].
Proof.
  unfold Sql.run, Sql.where_rows, count_where.
  now rewrite (filter_ext _ _ holds_estado_abierto).
Qed.

Lemma run_count_urgente (rows : list ticket) :
  Sql.run (Sql.SelectCount (Some (Sql.Eq "prioridad" (VText "urgente")))) rows
  = [[count_where is_urgente rows]].
Proof.
  unfold Sql.run, Sql.where_rows, count_where.
  now rewrite (filter_ext _ _ holds_prioridad_urgente).
Qed.

Lemma run_group (col : string) (n : option Z) (rows : list ticket) :
  Sql.run (Sql.SelectGroupCount col n) rows =
  map (fun g => [fst g; VInt (snd g)]) (Sql.opt_limit n (groups_of col rows)).
Proof. reflexivity. Qed.

Lemma obtener_estadisticas_run (w : world) (rows : list ticket)
      (agrupar_por : string) :
  db_file w = Some (TicketsTable rows) ->
  Str.mem (Str.lower agrupar_por) CRITERIOS = true ->
  obtener_estadisticas agrupar_por w =
    (Return
       (mkEstadisticas
          (VInt (Z.of_nat (List.length rows)))
          (fill_distribucion
             (map (fun g => [fst g; VInt (snd g)])
                  (groups_of (Str.lower agrupar_por) rows)))
          (mkMetricas
             (count_where is_abierto rows)
             (count_where is_urgente rows)
             (map (fun r => [("cliente", item r 0); ("tickets", item r 1)])
                  (map (fun g => [fst g; VInt (snd g)])
                       (Sql.limit_rows 5 (groups_of "cliente" rows)))))),
     after_queries w (stats_stmts (Str.lower agrupar_por))).
Proof.
  intros Hdb Hc. pose proof (criterio_is_column _ Hc) as Hcol.
  unfold obtener_estadisticas, bind.
  rewrite (get_db_connection_found w _ Hdb), Hc. cbn [negb]. cbv beta.
  rewrite (execute_on_table (opened w) rows);
    [ | exact Hdb | now left | reflexivity | reflexivity | reflexivity ].
  cbn [fetchone pending hd_error subscript ret Sql.run Sql.where_rows].
  rewrite (execute_on_table _ rows);
    [ | exact Hdb | now left | exact Hcol | reflexivity | reflexivity ].
  rewrite (execute_on_table _ rows);
    [ | exact Hdb | now left | reflexivity | reflexivity
      | now apply existsb_never ].
  rewrite run_count_abierto.
  cbn [fetchone pending hd_error subscript ret].
  rewrite (execute_on_table _ rows);
    [ | exact Hdb | now left | reflexivity | reflexivity
      | now apply existsb_never ].
  rewrite run_count_urgente.
  cbn [fetchone pending hd_error subscript ret].
  rewrite (execute_on_table _ rows);
    [ | exact Hdb | now left | reflexivity | reflexivity | reflexivity ].
  rewrite !run_group.
  cbn [fetchall pending Sql.opt_limit nth].
  unfold close, after_queries, stats_stmts, logged, opened. cbn [open_conns next_conn db_path db_file executed remove].
  destruct (Nat.eq_dec (next_conn w) (next_conn w)); [|contradiction].
  repeat rewrite <- app_assoc. reflexivity.
Qed.

Lemma obtener_estadisticas_bad_criterio (w : world) (db : database)
      (agrupar_por : string) :
  db_file w = Some db ->
  Str.mem (Str.lower agrupar_por) CRITERIOS = false ->
  obtener_estadisticas agrupar_por w =
    (Raise (criterio_invalido (Str.lower agrupar_por)), after_rejection w).
Proof.
  intros Hdb Hbad. unfold obtener_estadisticas, bind.
  rewrite (get_db_connection_found w _ Hdb), Hbad. simpl. closed_again w.
Qed.

Lemma obtener_estadisticas_missing (w : world) (agrupar_por : string) :
  db_file w = None ->
  obtener_estadisticas agrupar_por w =
    (Raise (FileNotFoundError
              ("Base de datos no encontrada en " ++ db_path w ++ ". "
               ++ seeding_hint)), w).
Proof.
  intros Hdb. unfold obtener_estadisticas, bind.
  now rewrite (get_db_connection_missing w Hdb).
Qed.

(* ------------------------------------------------------------------ *)
(** ** GROUP BY: one group per value, every row counted once *)

Lemma bump_keys_In (k k0 : value) (g : list (value * Z)) :
  In k0 (map fst (Sql.bump k g)) -> k0 = k \/ In k0 (map fst g).
Proof.
  induction g as [|[k' n] g IH]; simpl.
  - intros [H|[]]; auto.
  - destruct (value_eqb k k'); simpl; intros [H|H]; auto.
    destruct (IH H); auto.
Qed.

Lemma bump_keys_NoDup (k : value) (g : list (value * Z)) :
  NoDup (map fst g) -> NoDup (map fst (Sql.bump k g)).
Proof.
  induction g as [|[k' n] g IH]; simpl; intros H.
  - repeat constructor. intros [].
  - inversion H as [|? ? Hk' Hg]; subst.
    destruct (value_eqb_spec k k') as [->|Hne]; simpl.
    + now constructor.
    + constructor; [|auto].
      intros Hin. apply bump_keys_In in Hin. destruct Hin; congruence.
Qed.

Lemma bump_sum (k : value) (g : list (value * Z)) :
  sum_Z (map snd (Sql.bump k g)) = sum_Z (map snd g) + 1.
Proof.
  induction g as [|[k' n] g IH]; simpl; [lia|].
  destruct (value_eqb k k'); simpl; lia.
Qed.

Lemma group_fold_NoDup (keys : list value) (g : list (value * Z)) :
  NoDup (map fst g) ->
  NoDup (map fst (fold_left (fun g k => Sql.bump k g) keys g)).
Proof.
  revert g. induction keys as [|k keys IH]; simpl; intros g H; [exact H|].
  apply IH. now apply bump_keys_NoDup.
Qed.

Lemma group_fold_sum (keys : list value) (g : list (value * Z)) :
  sum_Z (map snd (fold_left (fun g k => Sql.bump k g) keys g))
  = sum_Z (map snd g) + Z.of_nat (List.length keys).
Proof.
  revert g. induction keys as [|k keys IH]; intros g.
  - simpl. lia.
  - cbn [fold_left List.length]. rewrite IH, bump_sum. lia.
Qed.

Lemma sum_Z_perm (l l' : list Z) : Permutation l l' -> sum_Z l = sum_Z l'.
Proof. induction 1; simpl; lia. Qed.

Lemma groups_of_perm (col : string) (rows : list ticket) :
  Permutation (groups_of col rows)
              (Sql.tally (map (column_or_null col) rows)).
Proof.
  unfold groups_of, Sql.group_count.
  now rewrite !sort_perm.
Qed.

Lemma groups_of_NoDup (col : string) (rows : list ticket) :
  NoDup (map fst (groups_of col rows)).
Proof.
  eapply Permutation_NoDup.
  - symmetry. apply Permutation_map, groups_of_perm.
  - apply group_fold_NoDup. constructor.
Qed.

Lemma groups_of_sum (col : string) (rows : list ticket) :
  sum_Z (map snd (groups_of col rows)) = Z.of_nat (List.length rows).
Proof.
  rewrite (sum_Z_perm _ _ (Permutation_map snd (groups_of_perm col rows))).
  unfold Sql.tally. rewrite group_fold_sum, length_map. simpl. lia.
Qed.

(* ------------------------------------------------------------------ *)
(** ** Filling the [distribucion] dictionary *)

Lemma dict_set_fresh (k v : value) (d : list (value * value)) :
  ~ In k (map fst d) -> Dict.set value_eqb k v d = (d ++ [(k, v)])%list.
Proof.
  induction d as [|[k' v'] d IH]; simpl; intros H; [reflexivity|].
  destruct (value_eqb_spec k k') as [->|Hne].
  - exfalso. apply H. now left.
  - f_equal. apply IH. intros Hin. apply H. now right.
Qed.

Lemma fill_fold_fresh (gs : list (value * Z)) (acc : list (value * value)) :
  NoDup (map fst acc ++ map fst gs)%list ->
  fold_left (fun d r => Dict.set value_eqb (item r 0) (item r 1) d)
            (map (fun g => [fst g; VInt (snd g)]) gs) acc
  = (acc ++ map (fun g => (fst g, VInt (snd g))) gs)%list.
Proof.
  revert acc. induction gs as [|[k n] gs IH]; intros acc H.
  - simpl. now rewrite app_nil_r.
  - cbn [map fold_left]. unfold item at 1 2. cbn [nth fst snd].
    rewrite dict_set_fresh.
    + rewrite IH.
      * now rewrite <- app_assoc.
      * rewrite map_app. cbn [map fst]. rewrite <- app_assoc. exact H.
    + cbn [map fst] in H. apply NoDup_remove_2 in H.
      intros Hin. apply H. apply in_or_app. now left.
Qed.

Lemma fill_distribucion_groups (gs : list (value * Z)) :
  NoDup (map fst gs) ->
  fill_distribucion (map (fun g => [fst g; VInt (snd g)]) gs)
  = map (fun g => (fst g, VInt (snd g))) gs.
Proof.
  intros H. unfold fill_distribucion. now rewrite fill_fold_fresh.
Qed.

(* ------------------------------------------------------------------ *)
(** ** LIKE with a wrapped search text *)

Lemma like_percent_unfold (p s : string) :
  Str.like (String Str.percent p) s =
  Str.like p s ||
  match s with
  | EmptyString => false
  | String _ s' => Str.like (String Str.percent p) s'
  end.
Proof. destruct s; reflexivity. Qed.

Lemma like_only_percent (s : string) : Str.like "%" s = true.
Proof.
  change "%" with (String Str.percent EmptyString).
  induction s as [|c s IH]; [reflexivity|].
  rewrite like_percent_unfold. rewrite IH. apply orb_true_r.
Qed.



(** LIKE folds the case of ASCII letters only: 'a' matches 'A', but
    U+00C9 does not match U+00E9. *)
Lemma like_folds_ascii_only :
  Str.like "%a%" "A" = true
  /\ Str.like (String "201"%char EmptyString) (String "233"%char EmptyString)
     = false.
Proof. split; reflexivity. Qed.

(** Texts the error messages are checked against. *)
Lemma contains_here (b s : string) : Str.contains b (b ++ s) = true.
Proof.
  assert (H : String.prefix b (b ++ s) = true).
  { induction b as [|c b IH]; simpl.
    - now destruct s.
    - destruct (ascii_dec c c); [exact IH | contradiction]. }
  destruct (b ++ s); simpl; simpl in H; rewrite H; reflexivity.
Qed.

Lemma contains_later (b a s : string) :
  Str.contains b s = true -> Str.contains b (a ++ s) = true.
Proof.
  intros H. induction a as [|c a IH]; [exact H|].
  cbn [append Str.contains]. rewrite IH. apply orb_true_r.
Qed.

(* ------------------------------------------------------------------ *)
(** ** The tickets as dictionaries *)


Lemma ticket_dict_injective (a b : ticket) :
  ticket_dict a = ticket_dict b -> a = b.
Proof.
  destruct a as [i1 c1 a1 d1 e1 p1 f1 g1], b as [i2 c2 a2 d2 e2 p2 f2 g2].
  unfold ticket_dict, zip_dict, ticket_row. cbn.
  intros H. injection H as -> -> -> Hd -> -> -> ->.
  destruct d1, d2; simpl in Hd; congruence.
Qed.




Lemma page_In (test : ticket -> bool) (limite : Z) (rows : list ticket)
      (t : ticket) :
  In t (page test limite rows) -> In t rows /\ test t = true.
Proof.
  unfold page, Sql.order_by_fecha_desc. intros H.
  apply In_firstn in H. apply sort_In in H. now apply filter_In in H.
Qed.


Lemma page_length (test : ticket -> bool) (limite : Z) (rows : list ticket) :
  List.length (page test limite rows)
  = Nat.min (Z.to_nat (clamp limite)) (List.length (filter test rows)).
Proof.
  unfold page, Sql.order_by_fecha_desc. now rewrite length_firstn, sort_length.
Qed.

Lemma page_all (test : ticket -> bool) (limite : Z) (rows : list ticket) :
  (List.length (filter test rows) <= Z.to_nat (clamp limite))%nat ->
  page test limite rows = Sql.order_by_fecha_desc (filter test rows).
Proof.
  intros H. unfold page. apply firstn_all2.
  unfold Sql.order_by_fecha_desc. now rewrite sort_length.
Qed.

(* ------------------------------------------------------------------ *)
(** ** Filtered listing *)



(* ------------------------------------------------------------------ *)
(** ** A store file without the table *)

Lemma consultar_tickets_without_table (w : world)
      (p e : option string) (limite : Z) :
  db_file w = Some NoTicketsTable ->
  accepted PRIORIDADES p -> accepted ESTADOS e ->
  consultar_tickets p e limite w =
    (Raise (OperationalError "no such table: tickets"), opened w).
Proof.
  intros Hdb Hp He.
  assert (Hex : forall s, execute (next_conn w) s (opened w)
                = (Raise (OperationalError "no such table: tickets"), opened w)).
  { intros s. apply execute_without_table; [exact Hdb | now left]. }
  unfold consultar_tickets, bind.
  rewrite (get_db_connection_found w _ Hdb).
  unfold accepted in Hp, He.
  destruct (truthy p) as [p'|]; [rewrite Hp|];
    (destruct (truthy e) as [e'|]; [rewrite He|]); simpl;
    unfold ret; now rewrite Hex.
Qed.

Lemma obtener_estadisticas_without_table (w : world) (agrupar_por : string) :
  db_file w = Some NoTicketsTable ->
  Str.mem (Str.lower agrupar_por) CRITERIOS = true ->
  obtener_estadisticas agrupar_por w =
    (Raise (OperationalError "no such table: tickets"), opened w).
Proof.
  intros Hdb Hc. unfold obtener_estadisticas, bind.
  rewrite (get_db_connection_found w _ Hdb), Hc. cbn [negb]. cbv beta.
  rewrite execute_without_table; [reflexivity | exact Hdb | now left].
Qed.

Lemma buscar_tickets_por_texto_without_table (w : world)
      (busqueda campo : string) (limite : Z) :
  db_file w = Some NoTicketsTable ->
  Str.mem (Str.lower campo) CAMPOS = true ->
  buscar_tickets_por_texto busqueda campo limite w =
    (Raise (OperationalError "no such table: tickets"), opened w).
Proof.
  intros Hdb Hc. unfold buscar_tickets_por_texto, bind.
  rewrite (get_db_connection_found w _ Hdb), Hc. cbn [negb]. cbv beta.
  rewrite execute_without_table; [reflexivity | exact Hdb | now left].
Qed.

(** C10.  An empty string given as [prioridad] or [estado] is treated as
    an absent filter: in every world the call behaves exactly as the call
    without that filter (same result or error, same final world), no
    equality test is added to the WHERE clause, and no ValueError is
    raised. *)
Theorem consultar_tickets_empty_filter_is_absent
        (w : world) (prioridad_f estado_f : option string) (limite : Z) :
  consultar_tickets (Some EmptyString) estado_f limite w
  = consultar_tickets None estado_f limite w
  /\ consultar_tickets prioridad_f (Some EmptyString) limite w
     = consultar_tickets prioridad_f None limite w
  /\ listing_where (Some EmptyString) estado_f = listing_where None estado_f
  /\ listing_where prioridad_f (Some EmptyString)
     = listing_where prioridad_f None
  /\ ~ raises_ValueError
         (consultar_tickets (Some EmptyString) (Some EmptyString) limite w).
Proof.
  repeat split.
  destruct (db_file w) as [[|rows]|] eqn:Hdb.
  - now rewrite (consultar_tickets_without_table w (Some "") (Some "") limite Hdb I I).
  - now rewrite (consultar_tickets_run w rows (Some "") (Some "") limite Hdb I I).
  - now rewrite (consultar_tickets_missing w (Some "") (Some "") limite Hdb).
Qed.

(* ------------------------------------------------------------------ *)
(** ** The store file is missing *)

Lemma contains_refl (b : string) : Str.contains b b = true.
Proof.
  assert (H : String.prefix b b = true).
  { induction b as [|c b IH]; simpl; [reflexivity|].
    destruct (ascii_dec c c); [exact IH | contradiction]. }
  destruct b; [reflexivity|].
  cbn [Str.contains]. now rewrite H.
Qed.

(** C5.  When no file exists at DB_PATH, each of the three tools raises
    FileNotFoundError, whatever its arguments; the world is left as it was
    (no connection opened, no statement run); the message tells the caller
    to run the seeding script first. *)
Theorem missing_store_raises_not_found
        (w : world) (prioridad_f estado_f : option string)
        (agrupar_por busqueda campo : string) (limite : Z) :
  db_file w = None ->
  exists msg : string,
    consultar_tickets prioridad_f estado_f limite w
    = (Raise (FileNotFoundError msg), w)
    /\ obtener_estadisticas agrupar_por w = (Raise (FileNotFoundError msg), w)
    /\ buscar_tickets_por_texto busqueda campo limite w
       = (Raise (FileNotFoundError msg), w)
    /\ Str.contains seeding_hint msg = true.
Proof.
  intros Hdb.
  exists ("Base de datos no encontrada en " ++ db_path w ++ ". " ++ seeding_hint).
  split; [now apply consultar_tickets_missing|].
  split; [now apply obtener_estadisticas_missing|].
  split; [now apply buscar_tickets_por_texto_missing|].
  apply (contains_later _ "Base de datos no encontrada en ").
  apply (contains_later _ (db_path w)).
  apply (contains_later _ ". "). apply contains_refl.
Qed.

(** The three tools on the example world without a store file. *)
Lemma missing_store_witness :
  raises_FileNotFoundError (consultar_tickets (Some "alta") None 20 Demo.missing)
  /\ raises_FileNotFoundError (obtener_estadisticas "estado" Demo.missing)
  /\ raises_FileNotFoundError
       (buscar_tickets_por_texto "pagos" "ambos" 20 Demo.missing).
Proof.
  destruct (missing_store_raises_not_found
              Demo.missing (Some "alta") None "estado" "pagos" "ambos" 20
              eq_refl) as [msg [H1 [H2 [H3 _]]]].
  unfold raises_FileNotFoundError. rewrite H1, H2, H3. simpl. auto.
Defined.

(* ------------------------------------------------------------------ *)
(** ** The limit *)

Lemma utf8_bytes_app (a b : string) :
  Str.utf8_bytes (a ++ b) = (Str.utf8_bytes a + Str.utf8_bytes b)%N.
Proof.
  induction a as [|c a IH]; [reflexivity|].
  cbn [append Str.utf8_bytes]. rewrite IH. lia.
Qed.

Lemma utf8_bytes_percents (n : nat) :
  Str.utf8_bytes (Str.replicate n Str.percent) = N.of_nat n.
Proof.
  induction n as [|n IH]; [reflexivity|].
  cbn [Str.replicate Str.utf8_bytes]. rewrite IH.
  change (N_of_ascii Str.percent <? 128)%N with true. cbv iota. lia.
Qed.

Lemma comodines_bytes :
  Str.utf8_bytes ("%" ++ Demo.comodines ++ "%") = 50001%N.
Proof.
  unfold Demo.comodines.
  rewrite !utf8_bytes_app, utf8_bytes_percents, N2Nat.id. reflexivity.
Qed.

Lemma comodines_do_not_fit : fits Demo.comodines = false.
Proof. unfold fits, Sql.pattern_fits. now rewrite comodines_bytes. Qed.

Lemma comodines_error :
  search_error Demo.comodines Demo.rows
  = Some (OperationalError "LIKE or GLOB pattern too complex").
Proof.
  unfold search_error, bind_param.
  rewrite comodines_bytes, comodines_do_not_fit. reflexivity.
Qed.

Lemma like_percents (n : nat) (s : string) :
  Str.like (Str.replicate (S n) Str.percent) s = true.
Proof.
  induction n as [|n IH].
  - apply like_only_percent.
  - change (Str.replicate (S (S n)) Str.percent)
      with (String Str.percent (Str.replicate (S n) Str.percent)).
    rewrite like_percent_unfold, IH. reflexivity.
Qed.

Lemma replicate_snoc (n : nat) (c : ascii) :
  Str.replicate n c ++ String c EmptyString = Str.replicate (S n) c.
Proof.
  induction n as [|n IH]; [reflexivity|].
  cbn [Str.replicate append]. now rewrite IH.
Qed.

Lemma comodines_match (s : string) :
  Str.like ("%" ++ Demo.comodines ++ "%") s = true.
Proof.
  unfold Demo.comodines.
  change ("%" ++ Str.replicate (N.to_nat 49999) Str.percent ++ "%")
    with (String Str.percent
            (Str.replicate (N.to_nat 49999) Str.percent
             ++ String Str.percent EmptyString)).
  rewrite replicate_snoc.
  apply (like_percents (S (N.to_nat 49999))).
Qed.

(** C4, as the code has it.  [limite] is never rejected: it is clamped
    into [1, 100].  On an existing store the listing returns as many
    tickets as match, up to the clamped limit, and so does the text search
    whenever SQLite accepts its pattern (the text between two '%' is at
    most 50000 bytes long; on an empty table, at most 1000000000 bytes);
    so a limit of 0 or less gives exactly one ticket when some ticket
    matches, and a limit above 100 gives at most 100. *)
Theorem limite_is_clamped
        (w : world) (rows : list ticket) (limite : Z)
        (prioridad_f estado_f : option string) (busqueda campo : string) :
  db_file w = Some (TicketsTable rows) ->
  accepted PRIORIDADES prioridad_f ->
  accepted ESTADOS estado_f ->
  Str.mem (Str.lower campo) CAMPOS = true ->
  searchable busqueda rows = true ->
  1 <= clamp limite <= 100
  /\ (limite <= 0 -> clamp limite = 1)
  /\ (100 < limite -> clamp limite = 100)
  /\ exists (listed searched : list record) (w1 w2 : world),
       consultar_tickets prioridad_f estado_f limite w = (Return listed, w1)
       /\ buscar_tickets_por_texto busqueda campo limite w
          = (Return searched, w2)
       /\ List.length listed
          = Nat.min (Z.to_nat (clamp limite))
              (List.length (filter (passes prioridad_f estado_f) rows))
       /\ List.length searched
          = Nat.min (Z.to_nat (clamp limite))
              (List.length (filter (found busqueda (Str.lower campo)) rows))
       /\ (limite <= 0 ->
           (filter (passes prioridad_f estado_f) rows <> [] ->
            List.length listed = 1%nat)
           /\ (filter (found busqueda (Str.lower campo)) rows <> [] ->
               List.length searched = 1%nat))
       /\ (100 < limite ->
           (List.length listed <= 100)%nat
           /\ (List.length searched <= 100)%nat).
Proof.
  intros Hdb Hp He Hc Hs.
  split; [apply clamp_range|].
  split; [unfold clamp; lia|].
  split; [unfold clamp; lia|].
  eexists _, _, _, _.
  split; [apply (consultar_tickets_run w rows _ _ _ Hdb Hp He)|].
  split; [apply (buscar_tickets_por_texto_run w rows _ _ _ Hdb Hc Hs)|].
  rewrite !length_map, !page_length.
  split; [reflexivity|]. split; [reflexivity|].
  split.
  - intros Hle. replace (clamp limite) with 1 by (unfold clamp; lia).
    split; intros Hne.
    + destruct (filter (passes prioridad_f estado_f) rows);
        [contradiction | reflexivity].
    + destruct (filter (found busqueda (Str.lower campo)) rows);
        [contradiction | reflexivity].
  - intros Hgt. replace (clamp limite) with 100 by (unfold clamp; lia).
    split; apply Nat.le_min_l.
Qed.

(** A limit of -3 on the example store gives one ticket. *)
Lemma limite_is_clamped_witness :
  exists listed searched : list record,
    fst (consultar_tickets None (Some "abierto") (-3) Demo.seeded)
    = Return listed
    /\ fst (buscar_tickets_por_texto "pagos" "ambos" (-3) Demo.seeded)
       = Return searched
    /\ List.length listed = 1%nat /\ List.length searched = 1%nat.
Proof.
  destruct (limite_is_clamped
              Demo.seeded Demo.rows (-3) None (Some "abierto") "pagos" "ambos"
              eq_refl I eq_refl eq_refl eq_refl)
    as [_ [_ [_ [listed [searched [w1 [w2 [H1 [H2 [_ [_ [Hlow _]]]]]]]]]]]].
  exists listed, searched. rewrite H1, H2.
  destruct (Hlow ltac:(lia)) as [Ha Hb].
  repeat split; [apply Ha | apply Hb]; discriminate.
Defined.

(** C4 as stated fails for a search text that SQLite rejects.  The text of
    49999 '%' matches the [asunto] of ticket 1 (as of every ticket), yet
    the search asked with limit 0 returns no ticket: LIKE raises on the
    pattern of 50001 bytes, and the call ends with that exception. *)
Lemma limite_counterexample :
  Str.like ("%" ++ Demo.comodines ++ "%") (asunto Demo.t1) = true
  /\ buscar_tickets_por_texto Demo.comodines "asunto" 0 Demo.seeded
     = (Raise (OperationalError "LIKE or GLOB pattern too complex"),
        opened Demo.seeded).
Proof.
  split; [apply comodines_match|].
  apply (buscar_tickets_por_texto_raises Demo.seeded Demo.rows);
    [reflexivity | reflexivity | apply comodines_error].
Qed.

(* ------------------------------------------------------------------ *)
(** ** Statistics *)

(** C3.  On an existing store and for a valid [agrupar_por] (estado,
    prioridad or cliente, in any case), the values of [distribucion] are
    integer counts, one per distinct key, and their sum is [total_tickets],
    the number of rows of the table. *)
Theorem distribucion_sums_to_total
        (w : world) (rows : list ticket) (agrupar_por : string) :
  db_file w = Some (TicketsTable rows) ->
  Str.mem (Str.lower agrupar_por) CRITERIOS = true ->
  exists (r : estadisticas) (counts : list Z),
    obtener_estadisticas agrupar_por w
    = (Return r, after_queries w (stats_stmts (Str.lower agrupar_por)))
    /\ Dict.values (distribucion r) = map VInt counts
    /\ NoDup (Dict.keys (distribucion r))
    /\ total_tickets r = VInt (sum_Z counts)
    /\ total_tickets r = VInt (Z.of_nat (List.length rows)).
Proof.
  intros Hdb Hc.
  eexists _, (map snd (groups_of (Str.lower agrupar_por) rows)).
  split; [apply (obtener_estadisticas_run w rows _ Hdb Hc)|].
  cbn [distribucion total_tickets].
  rewrite fill_distribucion_groups by apply groups_of_NoDup.
  unfold Dict.values, Dict.keys. rewrite !map_map. cbn [fst snd].
  split; [reflexivity|].
  split; [apply groups_of_NoDup|].
  split; [now rewrite groups_of_sum | reflexivity].
Qed.

(** The statistics of the example store grouped by "Cliente". *)
Lemma distribucion_sums_witness :
  exists (r : estadisticas) (counts : list Z),
    fst (obtener_estadisticas "Cliente" Demo.seeded) = Return r
    /\ Dict.values (distribucion r) = map VInt counts
    /\ total_tickets r = VInt (sum_Z counts).
Proof.
  destruct (distribucion_sums_to_total Demo.seeded Demo.rows "Cliente"
              eq_refl eq_refl) as [r [counts [Hrun [Hv [_ [Hs _]]]]]].
  exists r, counts. rewrite Hrun. auto.
Defined.

(** C6.  On an existing store, [tickets_abiertos] is the number of rows
    whose [estado] is "abierto".  That is the number of rows the query of
    [consultar_tickets] with estado "abierto" selects when it runs without
    LIMIT; the tool itself returns that many tickets up to its clamped
    limit, so the two agree whenever the limit does not cut the listing. *)
Theorem tickets_abiertos_matches_listing
        (w : world) (rows : list ticket) (agrupar_por : string) (limite : Z) :
  db_file w = Some (TicketsTable rows) ->
  Str.mem (Str.lower agrupar_por) CRITERIOS = true ->
  exists (r : estadisticas) (listed : list record) (w1 w2 : world),
    obtener_estadisticas agrupar_por w = (Return r, w1)
    /\ consultar_tickets None (Some "abierto") limite w = (Return listed, w2)
    /\ tickets_abiertos (metricas_adicionales r)
       = VInt (Z.of_nat (List.length (filter is_abierto rows)))
    /\ tickets_abiertos (metricas_adicionales r)
       = VInt (Z.of_nat
                 (List.length
                    (Sql.run (Sql.SelectAll
                                (listing_where None (Some "abierto")) (-1))
                             rows)))
    /\ List.length listed
       = Nat.min (Z.to_nat (clamp limite))
                 (List.length (filter is_abierto rows))
    /\ ((List.length (filter is_abierto rows) <= Z.to_nat (clamp limite))%nat ->
        tickets_abiertos (metricas_adicionales r)
        = VInt (Z.of_nat (List.length listed))).
Proof.
  intros Hdb Hc.
  eexists _, _, _, _.
  split; [apply (obtener_estadisticas_run w rows _ Hdb Hc)|].
  split; [apply (consultar_tickets_run w rows None (Some "abierto") limite
                   Hdb I eq_refl)|].
  cbn [metricas_adicionales tickets_abiertos]. unfold count_where.
  rewrite length_map, page_length.
  change (filter (passes None (Some "abierto")) rows)
    with (filter is_abierto rows).
  split; [reflexivity|].
  split.
  - cbn [Sql.run]. unfold Sql.limit_rows, Sql.order_by_fecha_desc.
    cbn [Z.ltb Z.compare]. rewrite length_map, sort_length.
    now rewrite (filter_ext _ _ (listing_where_holds None (Some "abierto"))).
  - split; [reflexivity|].
    intros Hle. now rewrite Nat.min_r.
Qed.

(** On the example store the open count is the size of the listing. *)
Lemma tickets_abiertos_witness :
  exists (r : estadisticas) (listed : list record),
    fst (obtener_estadisticas "estado" Demo.seeded) = Return r
    /\ fst (consultar_tickets None (Some "abierto") 20 Demo.seeded)
       = Return listed
    /\ tickets_abiertos (metricas_adicionales r)
       = VInt (Z.of_nat (List.length listed)).
Proof.
  destruct (tickets_abiertos_matches_listing Demo.seeded Demo.rows "estado" 20
              eq_refl eq_refl)
    as [r [listed [w1 [w2 [H1 [H2 [_ [_ [_ H]]]]]]]]].
  exists r, listed. rewrite H1, H2.
  repeat split. apply H. vm_compute. lia.
Defined.

(* ------------------------------------------------------------------ *)
(** ** Rejected arguments *)

Lemma invalid_messages_name_the_value (v : string) :
  names v (prioridad_invalida v) /\ names v (estado_invalido v)
  /\ names v (criterio_invalido v) /\ names v (campo_invalido v).
Proof.
  unfold names, prioridad_invalida, estado_invalido, criterio_invalido,
    campo_invalido.
  repeat split.
  - apply (contains_later _ "Prioridad inv"), (contains_later _ a_acute),
      (contains_later _ "lida: "), contains_here.
  - apply (contains_later _ "Estado inv"), (contains_later _ a_acute),
      (contains_later _ "lido: "), contains_here.
  - apply (contains_later _ "Criterio inv"), (contains_later _ a_acute),
      (contains_later _ "lido: "), contains_here.
  - apply (contains_later _ "Campo inv"), (contains_later _ a_acute),
      (contains_later _ "lido: "), contains_here.
Qed.

Lemma truthy_nonempty (v : string) :
  v <> EmptyString -> truthy (Some v) = Some v.
Proof. destruct v; [contradiction | reflexivity]. Qed.

Lemma consultar_tickets_rejects_estado (w : world) (db : database)
      (prioridad_f : option string) (v : string) (limite : Z) :
  db_file w = Some db ->
  v <> EmptyString -> Str.mem (Str.lower v) ESTADOS = false ->
  raises_ValueError (consultar_tickets prioridad_f (Some v) limite w)
  /\ snd (consultar_tickets prioridad_f (Some v) limite w) = after_rejection w.
Proof.
  intros Hdb Hne Hbad. unfold raises_ValueError.
  pose proof (truthy_nonempty v Hne) as Hv.
  destruct (truthy prioridad_f) as [p|] eqn:Hp.
  - destruct (Str.mem (Str.lower p) PRIORIDADES) eqn:Hmp.
    + rewrite (consultar_tickets_bad_estado w db prioridad_f (Some v) limite v
                 Hdb); auto.
      * simpl. auto.
      * unfold accepted. now rewrite Hp.
    + rewrite (consultar_tickets_bad_prioridad w db prioridad_f (Some v)
                 limite p Hdb Hp Hmp).
      simpl. auto.
  - rewrite (consultar_tickets_bad_estado w db prioridad_f (Some v) limite v
               Hdb); auto.
    + simpl. auto.
    + unfold accepted. now rewrite Hp.
Qed.

(** C2, as the code has it.  When the store file exists: a non-empty
    [prioridad] or [estado] outside its allowed set after lower-casing, and
    any [agrupar_por] or [campo] outside its allowed set after
    lower-casing, makes the tool raise ValueError with a message naming the
    lower-cased value (for [estado], when [prioridad] is itself absent,
    empty or valid; otherwise the ValueError is the one for [prioridad]).
    The tool has then opened and closed its connection and nothing else:
    no statement was run and the store file is as before. *)
Theorem invalid_enum_is_rejected
        (w : world) (db : database) (v : string)
        (prioridad_f estado_f : option string) (busqueda : string)
        (limite : Z) :
  db_file w = Some db ->
  (v <> EmptyString -> Str.mem (Str.lower v) PRIORIDADES = false ->
   consultar_tickets (Some v) estado_f limite w
   = (Raise (prioridad_invalida (Str.lower v)), after_rejection w))
  /\ (v <> EmptyString -> Str.mem (Str.lower v) ESTADOS = false ->
      accepted PRIORIDADES prioridad_f ->
      consultar_tickets prioridad_f (Some v) limite w
      = (Raise (estado_invalido (Str.lower v)), after_rejection w))
  /\ (v <> EmptyString -> Str.mem (Str.lower v) ESTADOS = false ->
      raises_ValueError (consultar_tickets prioridad_f (Some v) limite w)
      /\ snd (consultar_tickets prioridad_f (Some v) limite w)
         = after_rejection w)
  /\ (Str.mem (Str.lower v) CRITERIOS = false ->
      obtener_estadisticas v w
      = (Raise (criterio_invalido (Str.lower v)), after_rejection w))
  /\ (Str.mem (Str.lower v) CAMPOS = false ->
      buscar_tickets_por_texto busqueda v limite w
      = (Raise (campo_invalido (Str.lower v)), after_rejection w))
  /\ names (Str.lower v) (prioridad_invalida (Str.lower v))
  /\ names (Str.lower v) (estado_invalido (Str.lower v))
  /\ names (Str.lower v) (criterio_invalido (Str.lower v))
  /\ names (Str.lower v) (campo_invalido (Str.lower v))
  /\ executed (after_rejection w) = executed w
  /\ db_file (after_rejection w) = db_file w
  /\ ~ In (next_conn w) (open_conns (after_rejection w)).
Proof.
  intros Hdb.
  destruct (invalid_messages_name_the_value (Str.lower v)) as [N1 [N2 [N3 N4]]].
  split.
  { intros Hne Hbad.
    apply (consultar_tickets_bad_prioridad w db _ _ _ v Hdb);
      [now apply truthy_nonempty | exact Hbad]. }
  split.
  { intros Hne Hbad Hp.
    apply (consultar_tickets_bad_estado w db _ _ _ v Hdb Hp);
      [now apply truthy_nonempty | exact Hbad]. }
  split.
  { intros Hne Hbad.
    now apply (consultar_tickets_rejects_estado w db prioridad_f v limite). }
  split.
  { intros Hbad. now apply (obtener_estadisticas_bad_criterio w db). }
  split.
  { intros Hbad. now apply (buscar_tickets_por_texto_bad_campo w db). }
  repeat split; try assumption.
  apply remove_In.
Qed.

(** Four rejected arguments on the example store. *)
Lemma invalid_enum_witness :
  raises_ValueError (consultar_tickets (Some "Critica") None 20 Demo.seeded)
  /\ raises_ValueError (consultar_tickets None (Some "pendiente") 20 Demo.seeded)
  /\ raises_ValueError (obtener_estadisticas "fecha" Demo.seeded)
  /\ raises_ValueError (buscar_tickets_por_texto "pagos" "cliente" 20 Demo.seeded).
Proof.
  unfold raises_ValueError.
  destruct (invalid_enum_is_rejected Demo.seeded (TicketsTable Demo.rows)
              "Critica" None None "pagos" 20 eq_refl) as [H1 _].
  destruct (invalid_enum_is_rejected Demo.seeded (TicketsTable Demo.rows)
              "pendiente" None None "pagos" 20 eq_refl) as [_ [H2 _]].
  destruct (invalid_enum_is_rejected Demo.seeded (TicketsTable Demo.rows)
              "fecha" None None "pagos" 20 eq_refl) as [_ [_ [_ [H3 _]]]].
  destruct (invalid_enum_is_rejected Demo.seeded (TicketsTable Demo.rows)
              "cliente" None None "pagos" 20 eq_refl) as [_ [_ [_ [_ [H4 _]]]]].
  rewrite H1, H2, H3, H4; try reflexivity; try discriminate; try exact I.
  simpl. auto.
Defined.

(** C2 as stated fails.  The empty string is outside the allowed set of
    [prioridad], yet the listing does not raise: it runs its query and
    returns tickets.  And an invalid value given while the store file is
    missing raises FileNotFoundError, not ValueError. *)
Lemma invalid_enum_counterexample :
  Str.mem (Str.lower EmptyString) PRIORIDADES = false
  /\ (exists (res : list record) (w' : world),
        consultar_tickets (Some EmptyString) None 20 Demo.seeded
        = (Return res, w')
        /\ res <> []
        /\ executed w' <> executed Demo.seeded)
  /\ Str.mem (Str.lower "critica") PRIORIDADES = false
  /\ ~ raises_ValueError
         (consultar_tickets (Some "critica") None 20 Demo.missing).
Proof.
  split; [reflexivity|]. split.
  - eexists _, _. split; [vm_compute; reflexivity|].
    split; intros E; vm_compute in E; discriminate E.
  - split; [reflexivity|]. vm_compute. auto.
Qed.

(* ------------------------------------------------------------------ *)
(** ** Search in both fields *)

Lemma filter_length_le {A : Type} (f g : A -> bool) (l : list A) :
  (forall x, f x = true -> g x = true) ->
  (List.length (filter f l) <= List.length (filter g l))%nat.
Proof.
  intros Hfg. induction l as [|x l IH]; simpl; [lia|].
  destruct (f x) eqn:Ef.
  - rewrite (Hfg x Ef). simpl. lia.
  - destruct (g x); simpl; lia.
Qed.

Lemma In_map_ticket_dict (t : ticket) (l : list ticket) :
  In (ticket_dict t) (map ticket_dict l) <-> In t l.
Proof.
  rewrite in_map_iff. split.
  - intros [t' [E H]]. apply ticket_dict_injective in E. now subst.
  - intros H. now exists t.
Qed.

Lemma NoDup_map_ticket_dict (l : list ticket) :
  NoDup l -> NoDup (map ticket_dict l).
Proof.
  induction 1 as [|t l Ht Hl IH]; simpl; constructor; [|exact IH].
  now rewrite In_map_ticket_dict.
Qed.

Lemma unique_ids_NoDup (rows : list ticket) : unique_ids rows -> NoDup rows.
Proof. apply NoDup_map_inv. Qed.

Lemma page_NoDup (test : ticket -> bool) (limite : Z) (rows : list ticket) :
  NoDup rows -> NoDup (page test limite rows).
Proof.
  intros H. unfold page, Sql.order_by_fecha_desc.
  now apply firstn_NoDup, sort_NoDup, NoDup_filter.
Qed.

Lemma page_all_In (test : ticket -> bool) (limite : Z) (rows : list ticket)
      (t : ticket) :
  (List.length (filter test rows) <= Z.to_nat (clamp limite))%nat ->
  In t (page test limite rows) <-> In t rows /\ test t = true.
Proof.
  intros H. rewrite (page_all _ _ _ H). unfold Sql.order_by_fecha_desc.
  now rewrite sort_In, filter_In.
Qed.

Section FilterSorted.
Context {A : Type} (before : A -> A -> bool) (f : A -> bool).
Hypothesis before_total : forall a b, before a b = true \/ before b a = true.
Hypothesis before_trans :
  forall a b c, before a b = true -> before b c = true -> before a c = true.

Lemma filter_insert (x : A) (l : list A) :
  StronglySorted (fun a b => before a b = true) l ->
  filter f (Sql.insert before x l)
  = if f x then Sql.insert before x (filter f l) else filter f l.
Proof.
  induction 1 as [|y l Hs IH Hy].
  - simpl. now destruct (f x).
  - cbn [Sql.insert]. destruct (before x y) eqn:Exy.
    + cbn [filter]. destruct (f x); [|reflexivity].
      destruct (f y) eqn:Efy.
      * cbn [Sql.insert]. now rewrite Exy.
      * destruct (filter f l) as [|z m] eqn:Em; [reflexivity|].
        cbn [Sql.insert].
        assert (Hz : In z (filter f l)) by (rewrite Em; now left).
        apply filter_In in Hz as [Hz _].
        rewrite Forall_forall in Hy.
        now rewrite (before_trans x y z Exy (Hy z Hz)).
    + cbn [filter]. rewrite IH.
      destruct (f y), (f x); try reflexivity.
      cbn [Sql.insert]. now rewrite Exy.
Qed.

Lemma filter_sort (l : list A) :
  filter f (Sql.sort before l) = Sql.sort before (filter f l).
Proof.
  induction l as [|x l IH]; [reflexivity|].
  cbn [Sql.sort filter].
  rewrite filter_insert
    by (apply (sort_sorted before before_total before_trans)).
  rewrite IH. now destruct (f x).
Qed.
End FilterSorted.

Lemma firstn_In_more {A : Type} (n : nat) (l : list A) (x : A) :
  In x (firstn n l) -> In x (firstn (S n) l).
Proof.
  revert l. induction n as [|n IH]; intros [|y l]; simpl; try tauto.
  intros [H|H]; [now left|]. right. now apply (IH l).
Qed.

Lemma firstn_filter_In {A : Type} (f : A -> bool) (n : nat) (l : list A)
      (x : A) :
  In x (firstn n l) -> f x = true -> In x (firstn n (filter f l)).
Proof.
  revert n. induction l as [|y l IH]; intros [|n]; simpl; try tauto.
  intros [->|H] Hx.
  - rewrite Hx. now left.
  - destruct (f y).
    + right. now apply IH.
    + apply firstn_In_more. now apply IH.
Qed.

Lemma filter_within {A : Type} (f g : A -> bool) (l : list A) :
  (forall x, f x = true -> g x = true) ->
  filter f (filter g l) = filter f l.
Proof.
  intros H. induction l as [|x l IH]; simpl; [reflexivity|].
  destruct (g x) eqn:Eg; simpl; rewrite IH; [reflexivity|].
  destruct (f x) eqn:Ef; [|reflexivity].
  rewrite (H x Ef) in Eg. discriminate.
Qed.

Lemma page_narrower (f g : ticket -> bool) (limite : Z) (rows : list ticket)
      (t : ticket) :
  (forall x, f x = true -> g x = true) ->
  In t (page g limite rows) -> f t = true -> In t (page f limite rows).
Proof.
  intros Hfg Hin Hf. unfold page, Sql.order_by_fecha_desc in *.
  rewrite <- (filter_within f g rows Hfg).
  rewrite <- (filter_sort Sql.newer_first f newer_first_total
                newer_first_trans).
  now apply firstn_filter_In.
Qed.

(** C7, as the code has it.  On an existing store, and for a search text
    that SQLite accepts as a pattern (the text between two '%' is at most
    50000 bytes long; on an empty table, at most 1000000000 bytes), the
    search in both fields
    returns, newest first and cut at the clamped limit, tickets whose
    [asunto] or [descripcion] matches, none of them twice, and each of
    them is also returned by the search in [asunto] or by the search in
    [descripcion] for the same text and limit.  When the tickets matching
    in either field are no more than the clamped limit, it returns exactly
    the tickets that those two searches return, and every matching ticket
    is there exactly once. *)
Theorem ambos_is_union_within_limit
        (w : world) (rows : list ticket) (busqueda : string) (limite : Z) :
  db_file w = Some (TicketsTable rows) ->
  unique_ids rows ->
  searchable busqueda rows = true ->
  exists (a d b : list record) (wa wd wb : world),
    buscar_tickets_por_texto busqueda "asunto" limite w = (Return a, wa)
    /\ buscar_tickets_por_texto busqueda "descripcion" limite w
       = (Return d, wd)
    /\ buscar_tickets_por_texto busqueda "ambos" limite w = (Return b, wb)
    /\ b = map ticket_dict (page (in_either busqueda) limite rows)
    /\ NoDup b
    /\ (forall t, In (ticket_dict t) b ->
          In t rows /\ in_either busqueda t = true)
    /\ (forall x, In x b -> In x a \/ In x d)
    /\ ((List.length (filter (in_either busqueda) rows)
         <= Z.to_nat (clamp limite))%nat ->
        (forall x, In x b <-> In x a \/ In x d)
        /\ (forall t, In t rows -> in_either busqueda t = true ->
              In (ticket_dict t) b)).
Proof.
  intros Hdb Hids Hs. apply unique_ids_NoDup in Hids.
  eexists _, _, _, _, _, _.
  split; [apply (buscar_tickets_por_texto_run w rows busqueda "asunto" limite
                   Hdb eq_refl Hs)|].
  split; [apply (buscar_tickets_por_texto_run w rows busqueda "descripcion"
                   limite Hdb eq_refl Hs)|].
  split; [apply (buscar_tickets_por_texto_run w rows busqueda "ambos" limite
                   Hdb eq_refl Hs)|].
  change (found busqueda (Str.lower "ambos")) with (in_either busqueda).
  change (found busqueda (Str.lower "asunto")) with (in_asunto busqueda).
  change (found busqueda (Str.lower "descripcion"))
    with (in_descripcion busqueda).
  split; [reflexivity|].
  split; [now apply NoDup_map_ticket_dict, page_NoDup|].
  split; [|split].
  - intros t Ht. apply In_map_ticket_dict in Ht. now apply page_In in Ht.
  - intros x Hx. apply in_map_iff in Hx as [t [<- Ht]].
    destruct (page_In _ _ _ _ Ht) as [_ Hm].
    unfold in_either in Hm. apply orb_true_iff in Hm as [Hm|Hm].
    + left. apply In_map_ticket_dict.
      apply (page_narrower _ (in_either busqueda)); try assumption.
      intros y Hy. unfold in_either. now rewrite Hy.
    + right. apply In_map_ticket_dict.
      apply (page_narrower _ (in_either busqueda)); try assumption.
      intros y Hy. unfold in_either. rewrite Hy. apply orb_true_r.
  - intros Hfit.
    assert (Ha : (List.length (filter (in_asunto busqueda) rows)
                  <= Z.to_nat (clamp limite))%nat).
    { etransitivity; [|exact Hfit]. apply filter_length_le.
      intros t Ht. unfold in_either. now rewrite Ht. }
    assert (Hd : (List.length (filter (in_descripcion busqueda) rows)
                  <= Z.to_nat (clamp limite))%nat).
    { etransitivity; [|exact Hfit]. apply filter_length_le.
      intros t Ht. unfold in_either. rewrite Ht. apply orb_true_r. }
    split.
    + intros x. rewrite !in_map_iff. split.
      * intros [t [<- Ht]]. apply (page_all_In _ _ _ _ Hfit) in Ht as [Hin Hm].
        unfold in_either in Hm. apply orb_true_iff in Hm as [Hm|Hm].
        -- left. exists t. split; [reflexivity|].
           now apply (page_all_In _ _ _ _ Ha).
        -- right. exists t. split; [reflexivity|].
           now apply (page_all_In _ _ _ _ Hd).
      * intros [[t [<- Ht]]|[t [<- Ht]]]; exists t; (split; [reflexivity|]).
        -- apply (page_all_In _ _ _ _ Ha) in Ht as [Hin Hm].
           apply (page_all_In _ _ _ _ Hfit). split; [exact Hin|].
           unfold in_either. now rewrite Hm.
        -- apply (page_all_In _ _ _ _ Hd) in Ht as [Hin Hm].
           apply (page_all_In _ _ _ _ Hfit). split; [exact Hin|].
           unfold in_either. rewrite Hm. apply orb_true_r.
    + intros t Hin Hm. apply In_map_ticket_dict.
      now apply (page_all_In _ _ _ _ Hfit).
Qed.

(** The three searches for "pagos" on the example store, limit 20. *)
Lemma ambos_is_union_witness :
  exists a d b : list record,
    fst (buscar_tickets_por_texto "pagos" "asunto" 20 Demo.seeded) = Return a
    /\ fst (buscar_tickets_por_texto "pagos" "descripcion" 20 Demo.seeded)
       = Return d
    /\ fst (buscar_tickets_por_texto "pagos" "ambos" 20 Demo.seeded) = Return b
    /\ NoDup b
    /\ (forall x, In x b <-> In x a \/ In x d).
Proof.
  assert (Hids : unique_ids Demo.rows).
  { unfold unique_ids. simpl. repeat constructor; simpl; intuition discriminate. }
  destruct (ambos_is_union_within_limit Demo.seeded Demo.rows "pagos" 20
              eq_refl Hids eq_refl)
    as [a [d [b [wa [wd [wb [H1 [H2 [H3 [_ [Hnd [_ [_ Hall]]]]]]]]]]]]].
  exists a, d, b. rewrite H1, H2, H3.
  repeat split; try assumption; apply Hall; vm_compute; lia.
Defined.

(** C7 as stated fails when the limit cuts the results: with limit 1 the
    search for "pagos" in [descripcion] returns ticket 3, which the search
    in both fields, cut to the single newest match (ticket 1), does not
    return.  It also fails for a search text that SQLite rejects: the text
    of 49999 '%' matches the [asunto] of ticket 1, and the search in both
    fields returns no ticket, it ends with the exception of LIKE. *)
Lemma ambos_union_counterexample :
  exists a d b : list record,
    fst (buscar_tickets_por_texto "pagos" "asunto" 1 Demo.seeded) = Return a
    /\ fst (buscar_tickets_por_texto "pagos" "descripcion" 1 Demo.seeded)
       = Return d
    /\ fst (buscar_tickets_por_texto "pagos" "ambos" 1 Demo.seeded) = Return b
    /\ a = [ticket_dict Demo.t1]
    /\ d = [ticket_dict Demo.t3]
    /\ b = [ticket_dict Demo.t1]
    /\ ~ (forall x, In x b <-> In x a \/ In x d)
    /\ Str.like ("%" ++ Demo.comodines ++ "%") (asunto Demo.t1) = true
    /\ buscar_tickets_por_texto Demo.comodines "ambos" 20 Demo.seeded
       = (Raise (OperationalError "LIKE or GLOB pattern too complex"),
          opened Demo.seeded).
Proof.
  eexists _, _, _.
  split; [vm_compute; reflexivity|].
  split; [vm_compute; reflexivity|].
  split; [vm_compute; reflexivity|].
  split; [reflexivity|]. split; [reflexivity|]. split; [reflexivity|].
  split; [|split].
  - intros H.
    destruct (proj2 (H (ticket_dict Demo.t3))) as [E|[]].
    + right. now left.
    + vm_compute in E. discriminate E.
  - apply comodines_match.
  - apply (buscar_tickets_por_texto_raises Demo.seeded Demo.rows);
      [reflexivity | reflexivity | apply comodines_error].
Qed.

(* ------------------------------------------------------------------ *)
(** ** Wildcards in the search text *)









(* ------------------------------------------------------------------ *)
(** ** Release of the connection *)

(** With the table in place and a search text that SQLite accepts, each tool
    has closed the connection it opened when it is done, whether it returns
    or rejects an argument. *)
Lemma handle_released_with_table
      (w : world) (rows : list ticket) (p e : option string)
      (agrupar_por busqueda campo : string) (limite : Z) :
  db_file w = Some (TicketsTable rows) ->
  searchable busqueda rows = true ->
  ~ In (next_conn w) (open_conns (snd (consultar_tickets p e limite w)))
  /\ ~ In (next_conn w) (open_conns (snd (obtener_estadisticas agrupar_por w)))
  /\ ~ In (next_conn w)
        (open_conns (snd (buscar_tickets_por_texto busqueda campo limite w))).
Proof.
  intros Hdb Hs. repeat split.
  - destruct (truthy p) as [p'|] eqn:Hp.
    + destruct (Str.mem (Str.lower p') PRIORIDADES) eqn:Hmp.
      * assert (Hap : accepted PRIORIDADES p) by (unfold accepted; now rewrite Hp).
        destruct (truthy e) as [e'|] eqn:He.
        -- destruct (Str.mem (Str.lower e') ESTADOS) eqn:Hme.
           ++ rewrite (consultar_tickets_run w rows p e limite Hdb Hap)
                by (unfold accepted; now rewrite He).
              apply remove_In.
           ++ rewrite (consultar_tickets_bad_estado w _ p e limite e' Hdb Hap He Hme).
              apply remove_In.
        -- rewrite (consultar_tickets_run w rows p e limite Hdb Hap)
             by (unfold accepted; now rewrite He).
           apply remove_In.
      * rewrite (consultar_tickets_bad_prioridad w _ p e limite p' Hdb Hp Hmp).
        apply remove_In.
    + assert (Hap : accepted PRIORIDADES p) by (unfold accepted; now rewrite Hp).
      destruct (truthy e) as [e'|] eqn:He.
      * destruct (Str.mem (Str.lower e') ESTADOS) eqn:Hme.
        -- rewrite (consultar_tickets_run w rows p e limite Hdb Hap)
             by (unfold accepted; now rewrite He).
           apply remove_In.
        -- rewrite (consultar_tickets_bad_estado w _ p e limite e' Hdb Hap He Hme).
           apply remove_In.
      * rewrite (consultar_tickets_run w rows p e limite Hdb Hap)
          by (unfold accepted; now rewrite He).
        apply remove_In.
  - destruct (Str.mem (Str.lower agrupar_por) CRITERIOS) eqn:Hc.
    + rewrite (obtener_estadisticas_run w rows _ Hdb Hc). apply remove_In.
    + rewrite (obtener_estadisticas_bad_criterio w _ _ Hdb Hc). apply remove_In.
  - destruct (Str.mem (Str.lower campo) CAMPOS) eqn:Hc.
    + rewrite (buscar_tickets_por_texto_run w rows _ _ _ Hdb Hc Hs).
      apply remove_In.
    + rewrite (buscar_tickets_por_texto_bad_campo w _ _ _ _ Hdb Hc).
      apply remove_In.
Qed.

(** C8 fails in the code.  The store file exists but holds no table
    [tickets]: the first statement of each tool raises
    sqlite3.OperationalError, and the tool propagates it without closing
    the connection it opened, which is still among the open handles. *)
Theorem handle_left_open_on_storage_error :
  consultar_tickets None None 20 Demo.unseeded
  = (Raise (OperationalError "no such table: tickets"), opened Demo.unseeded)
  /\ obtener_estadisticas "estado" Demo.unseeded
     = (Raise (OperationalError "no such table: tickets"),
        opened Demo.unseeded)
  /\ buscar_tickets_por_texto "pagos" "asunto" 20 Demo.unseeded
     = (Raise (OperationalError "no such table: tickets"),
        opened Demo.unseeded)
  /\ open_conns Demo.unseeded = []
  /\ open_conns (opened Demo.unseeded) = [next_conn Demo.unseeded].
Proof.
  split; [apply consultar_tickets_without_table; [reflexivity | exact I | exact I]|].
  split; [apply obtener_estadisticas_without_table; reflexivity|].
  split; [apply buscar_tickets_por_texto_without_table; reflexivity|].
  split; reflexivity.
Qed.

(* ------------------------------------------------------------------ *)
(** ** Every path of the three tools *)

Lemma accepted_dec (allowed : list string) (o : option string) :
  accepted allowed o
  \/ exists s, truthy o = Some s /\ Str.mem (Str.lower s) allowed = false.
Proof.
  unfold accepted. destruct (truthy o) as [s|]; [|now left].
  destruct (Str.mem (Str.lower s) allowed) eqn:E; [now left|].
  right. now exists s.
Qed.

Lemma accepted_not_rejected (allowed : list string) (o : option string)
      (s : string) :
  accepted allowed o -> truthy o = Some s ->
  Str.mem (Str.lower s) allowed = false -> False.
Proof. unfold accepted. intros H E Hbad. rewrite E in H. congruence. Qed.

Lemma consultar_tickets_cases (w : world) (p e : option string) (limite : Z) :
  (db_file w = None
   /\ consultar_tickets p e limite w = (Raise (not_found w), w))
  \/ (exists db p',
        db_file w = Some db /\ truthy p = Some p'
        /\ Str.mem (Str.lower p') PRIORIDADES = false
        /\ consultar_tickets p e limite w
           = (Raise (prioridad_invalida (Str.lower p')), after_rejection w))
  \/ (exists db e',
        db_file w = Some db /\ accepted PRIORIDADES p
        /\ truthy e = Some e' /\ Str.mem (Str.lower e') ESTADOS = false
        /\ consultar_tickets p e limite w
           = (Raise (estado_invalido (Str.lower e')), after_rejection w))
  \/ (db_file w = Some NoTicketsTable
      /\ accepted PRIORIDADES p /\ accepted ESTADOS e
      /\ consultar_tickets p e limite w
         = (Raise (OperationalError "no such table: tickets"), opened w))
  \/ (exists rows,
        db_file w = Some (TicketsTable rows)
        /\ accepted PRIORIDADES p /\ accepted ESTADOS e
        /\ consultar_tickets p e limite w
           = (Return (map ticket_dict (page (passes p e) limite rows)),
              after_queries w
                [Sql.SelectAll (listing_where p e) (clamp limite)])).
Proof.
  destruct (db_file w) as [db|] eqn:Hdb.
  2:{ left. split; [reflexivity | now apply consultar_tickets_missing]. }
  right.
  destruct (accepted_dec PRIORIDADES p) as [Hp|[p' [Hp Hbad]]].
  2:{ left. exists db, p'. repeat split; try assumption.
      now apply (consultar_tickets_bad_prioridad w db). }
  right.
  destruct (accepted_dec ESTADOS e) as [He|[e' [He Hbad]]].
  2:{ left. exists db, e'. repeat split; try assumption.
      now apply (consultar_tickets_bad_estado w db). }
  right. destruct db as [|rows].
  - left. repeat split; try assumption.
    now apply consultar_tickets_without_table.
  - right. exists rows. repeat split; try assumption.
    now apply consultar_tickets_run.
Qed.

Lemma obtener_estadisticas_cases (w : world) (agrupar_por : string) :
  (db_file w = None
   /\ obtener_estadisticas agrupar_por w = (Raise (not_found w), w))
  \/ (exists db,
        db_file w = Some db
        /\ Str.mem (Str.lower agrupar_por) CRITERIOS = false
        /\ obtener_estadisticas agrupar_por w
           = (Raise (criterio_invalido (Str.lower agrupar_por)),
              after_rejection w))
  \/ (db_file w = Some NoTicketsTable
      /\ Str.mem (Str.lower agrupar_por) CRITERIOS = true
      /\ obtener_estadisticas agrupar_por w
         = (Raise (OperationalError "no such table: tickets"), opened w))
  \/ (exists rows r,
        db_file w = Some (TicketsTable rows)
        /\ Str.mem (Str.lower agrupar_por) CRITERIOS = true
        /\ obtener_estadisticas agrupar_por w
           = (Return r, after_queries w (stats_stmts (Str.lower agrupar_por)))).
Proof.
  destruct (db_file w) as [db|] eqn:Hdb.
  2:{ left. split; [reflexivity | now apply obtener_estadisticas_missing]. }
  right.
  destruct (Str.mem (Str.lower agrupar_por) CRITERIOS) eqn:Hc.
  2:{ left. exists db. repeat split.
      now apply (obtener_estadisticas_bad_criterio w db). }
  right. destruct db as [|rows].
  - left. repeat split. now apply obtener_estadisticas_without_table.
  - right. eexists rows, _.
    split; [reflexivity|]. split; [reflexivity|].
    apply (obtener_estadisticas_run w rows _ Hdb Hc).
Qed.

Lemma buscar_tickets_por_texto_cases (w : world) (busqueda campo : string)
      (limite : Z) :
  (db_file w = None
   /\ buscar_tickets_por_texto busqueda campo limite w
      = (Raise (not_found w), w))
  \/ (exists db,
        db_file w = Some db
        /\ Str.mem (Str.lower campo) CAMPOS = false
        /\ buscar_tickets_por_texto busqueda campo limite w
           = (Raise (campo_invalido (Str.lower campo)), after_rejection w))
  \/ (db_file w = Some NoTicketsTable
      /\ Str.mem (Str.lower campo) CAMPOS = true
      /\ buscar_tickets_por_texto busqueda campo limite w
         = (Raise (OperationalError "no such table: tickets"), opened w))
  \/ (exists rows e,
        db_file w = Some (TicketsTable rows)
        /\ Str.mem (Str.lower campo) CAMPOS = true
        /\ searchable busqueda rows = false
        /\ search_error busqueda rows = Some e
        /\ buscar_tickets_por_texto busqueda campo limite w
           = (Raise e, opened w))
  \/ (exists rows,
        db_file w = Some (TicketsTable rows)
        /\ Str.mem (Str.lower campo) CAMPOS = true
        /\ searchable busqueda rows = true
        /\ buscar_tickets_por_texto busqueda campo limite w
           = (Return (map ticket_dict
                        (page (found busqueda (Str.lower campo)) limite rows)),
              after_queries w [search_stmt busqueda (Str.lower campo) limite])).
Proof.
  destruct (db_file w) as [db|] eqn:Hdb.
  2:{ left. split; [reflexivity | now apply buscar_tickets_por_texto_missing]. }
  right.
  destruct (Str.mem (Str.lower campo) CAMPOS) eqn:Hc.
  2:{ left. exists db. repeat split.
      now apply (buscar_tickets_por_texto_bad_campo w db). }
  right. destruct db as [|rows].
  - left. repeat split. now apply buscar_tickets_por_texto_without_table.
  - right. destruct (searchable busqueda rows) eqn:Hs.
    + right. exists rows. split; [reflexivity|]. split; [reflexivity|].
      split; [exact Hs|].
      now apply (buscar_tickets_por_texto_run w rows).
    + left. destruct (search_error busqueda rows) as [e|] eqn:He.
      2:{ apply searchable_no_error in He. congruence. }
      exists rows, e. split; [reflexivity|]. split; [reflexivity|].
      split; [exact Hs|]. split; [exact He|].
      now apply (buscar_tickets_por_texto_raises w rows).
Qed.

(** X1.  The query tools never write: in every world (store file missing,
    without the table, or seeded) and for all arguments, valid or not, the
    store file and its path are after the call what they were before. *)
Theorem tools_never_write
        (w : world) (p e : option string)
        (agrupar_por busqueda campo : string) (limite : Z) :
  same_store w (snd (consultar_tickets p e limite w))
  /\ same_store w (snd (obtener_estadisticas agrupar_por w))
  /\ same_store w (snd (buscar_tickets_por_texto busqueda campo limite w)).
Proof.
  unfold same_store. split; [|split].
  - destruct (consultar_tickets_cases w p e limite)
      as [[_ H]|[[db [p' [_ [_ [_ H]]]]]|[[db [e' [_ [_ [_ [_ H]]]]]]
         |[[_ [_ [_ H]]]|[rows [_ [_ [_ H]]]]]]]];
      rewrite H; split; reflexivity.
  - destruct (obtener_estadisticas_cases w agrupar_por)
      as [[_ H]|[[db [_ [_ H]]]|[[_ [_ H]]|[rows [r [_ [_ H]]]]]]];
      rewrite H; split; reflexivity.
  - destruct (buscar_tickets_por_texto_cases w busqueda campo limite)
      as [[_ H]|[[db [_ [_ H]]]|[[_ [_ H]]|[[rows [x [_ [_ [_ [_ H]]]]]]
         |[rows [_ [_ [_ H]]]]]]]];
      rewrite H; split; reflexivity.
Qed.

(** X2.  What a tool answers depends on the store file alone: in two
    worlds with the same store file at the same path, whatever connections
    are open and whatever ran before, the same call gives the same result
    or the same exception.  With X1, a call repeated on an unchanged store
    answers the same again. *)
Theorem tools_answer_from_store_alone
        (w1 w2 : world) (p e : option string)
        (agrupar_por busqueda campo : string) (limite : Z) :
  same_store w1 w2 ->
  fst (consultar_tickets p e limite w2) = fst (consultar_tickets p e limite w1)
  /\ fst (obtener_estadisticas agrupar_por w2)
     = fst (obtener_estadisticas agrupar_por w1)
  /\ fst (buscar_tickets_por_texto busqueda campo limite w2)
     = fst (buscar_tickets_por_texto busqueda campo limite w1).
Proof.
  intros [Hf Hp].
  assert (Hnf : not_found w2 = not_found w1)
    by (unfold not_found; now rewrite Hp).
  split; [|split].
  - destruct (consultar_tickets_cases w1 p e limite)
      as [[Hdb H]|[[db [p' [Hdb [Ht [Hbad H]]]]]
         |[[db [e' [Hdb [Hap [Ht [Hbad H]]]]]]
         |[[Hdb [Hap [Hae H]]]|[rows [Hdb [Hap [Hae H]]]]]]]];
      rewrite H; rewrite <- Hf in Hdb.
    + now rewrite (consultar_tickets_missing w2 p e limite Hdb), <- Hnf.
    + now rewrite (consultar_tickets_bad_prioridad w2 db p e limite p' Hdb Ht Hbad).
    + now rewrite (consultar_tickets_bad_estado w2 db p e limite e' Hdb Hap Ht Hbad).
    + now rewrite (consultar_tickets_without_table w2 p e limite Hdb Hap Hae).
    + now rewrite (consultar_tickets_run w2 rows p e limite Hdb Hap Hae).
  - destruct (obtener_estadisticas_cases w1 agrupar_por)
      as [[Hdb H]|[[db [Hdb [Hbad H]]]|[[Hdb [Hc H]]|[rows [r [Hdb [Hc H]]]]]]];
      rewrite <- Hf in Hdb.
    + rewrite H. now rewrite (obtener_estadisticas_missing w2 _ Hdb), <- Hnf.
    + rewrite H. now rewrite (obtener_estadisticas_bad_criterio w2 db _ Hdb Hbad).
    + rewrite H. now rewrite (obtener_estadisticas_without_table w2 _ Hdb Hc).
    + rewrite Hf in Hdb.
      rewrite (obtener_estadisticas_run w1 rows _ Hdb Hc).
      rewrite <- Hf in Hdb.
      now rewrite (obtener_estadisticas_run w2 rows _ Hdb Hc).
  - destruct (buscar_tickets_por_texto_cases w1 busqueda campo limite)
      as [[Hdb H]|[[db [Hdb [Hbad H]]]|[[Hdb [Hc H]]
         |[[rows [x [Hdb [Hc [_ [Hs H]]]]]]|[rows [Hdb [Hc [Hs H]]]]]]]];
      rewrite H; rewrite <- Hf in Hdb.
    + now rewrite (buscar_tickets_por_texto_missing w2 _ _ _ Hdb), <- Hnf.
    + now rewrite (buscar_tickets_por_texto_bad_campo w2 db _ _ _ Hdb Hbad).
    + now rewrite (buscar_tickets_por_texto_without_table w2 _ _ _ Hdb Hc).
    + now rewrite (buscar_tickets_por_texto_raises w2 rows _ _ _ x Hdb Hc Hs).
    + now rewrite (buscar_tickets_por_texto_run w2 rows _ _ _ Hdb Hc Hs).
Qed.

(** A listing asked twice in a row on the example store. *)
Lemma tools_answer_from_store_witness :
  fst (consultar_tickets (Some "alta") None 20
         (snd (consultar_tickets (Some "alta") None 20 Demo.seeded)))
  = fst (consultar_tickets (Some "alta") None 20 Demo.seeded).
Proof.
  apply (tools_answer_from_store_alone
           Demo.seeded
           (snd (consultar_tickets (Some "alta") None 20 Demo.seeded))
           (Some "alta") None "estado" "pagos" "asunto" 20).
  split; reflexivity.
Defined.

(** X13.  With a store file in place, a tool raises ValueError exactly
    when one of its enumerated arguments is rejected: a non-empty
    [prioridad] or [estado], or any [agrupar_por] or [campo], whose
    lower-case form is outside the allowed set.  Accepted arguments never
    give a ValueError, and on a store with its table they give a result;
    the search gives one when, besides, SQLite accepts its text as a
    pattern (the text between two '%' is at most 50000 bytes long; on an
    empty table, at most 1000000000 bytes). *)
Theorem value_error_iff_rejected
        (w : world) (db : database) (p e : option string)
        (agrupar_por busqueda campo : string) (limite : Z) :
  db_file w = Some db ->
  (raises_ValueError (consultar_tickets p e limite w)
   <-> ~ (accepted PRIORIDADES p /\ accepted ESTADOS e))
  /\ (raises_ValueError (obtener_estadisticas agrupar_por w)
      <-> Str.mem (Str.lower agrupar_por) CRITERIOS = false)
  /\ (raises_ValueError (buscar_tickets_por_texto busqueda campo limite w)
      <-> Str.mem (Str.lower campo) CAMPOS = false)
  /\ (forall rows, db = TicketsTable rows ->
      (returns (consultar_tickets p e limite w)
       <-> accepted PRIORIDADES p /\ accepted ESTADOS e)
      /\ (returns (obtener_estadisticas agrupar_por w)
          <-> Str.mem (Str.lower agrupar_por) CRITERIOS = true)
      /\ (returns (buscar_tickets_por_texto busqueda campo limite w)
          <-> Str.mem (Str.lower campo) CAMPOS = true
              /\ searchable busqueda rows = true)).
Proof.
  intros Hdb. unfold raises_ValueError, returns.
  assert (Hc1 :
    (accepted PRIORIDADES p /\ accepted ESTADOS e
     /\ (fst (consultar_tickets p e limite w)
         = Raise (OperationalError "no such table: tickets")
         /\ db = NoTicketsTable
         \/ exists rows l, db = TicketsTable rows
              /\ fst (consultar_tickets p e limite w) = Return l))
    \/ (~ (accepted PRIORIDADES p /\ accepted ESTADOS e)
        /\ exists msg, fst (consultar_tickets p e limite w)
                       = Raise (ValueError msg))).
  { destruct (consultar_tickets_cases w p e limite)
      as [[Hn H]|[[db' [p' [_ [Ht [Hbad H]]]]]
         |[[db' [e' [_ [Hap [Ht [Hbad H]]]]]]
         |[[Hdb' [Hap [Hae H]]]|[rows [Hdb' [Hap [Hae H]]]]]]]]; rewrite H.
    - congruence.
    - right. split; [|eexists; reflexivity].
      intros [Hap _]. exact (accepted_not_rejected _ _ _ Hap Ht Hbad).
    - right. split; [|eexists; reflexivity].
      intros [_ Hae]. exact (accepted_not_rejected _ _ _ Hae Ht Hbad).
    - left. repeat split; try assumption. left. split; [reflexivity|congruence].
    - left. repeat split; try assumption. right.
      eexists rows, _. split; [congruence | reflexivity]. }
  split; [|split; [|split]].
  - destruct Hc1 as [[Hap [Hae [[H _]|[rows [l [_ H]]]]]]|[Hn [msg H]]];
      rewrite H; simpl.
    + split; [intros [] | intros Hn; apply Hn; now split].
    + split; [intros [] | intros Hn; apply Hn; now split].
    + split; [intros _; exact Hn | intros _; exact I].
  - destruct (obtener_estadisticas_cases w agrupar_por)
      as [[Hn _]|[[db' [_ [Hbad H]]]|[[_ [Hc H]]|[rows [r [_ [Hc H]]]]]]];
      try congruence; rewrite H; cbn [fst]; (split; intros Hx; first [exact I | assumption | congruence | now destruct Hx]).
  - destruct (buscar_tickets_por_texto_cases w busqueda campo limite)
      as [[Hn _]|[[db' [_ [Hbad H]]]|[[_ [Hc H]]|[[rows [x [_ [Hc [_ [Hx H]]]]]]
         |[rows [_ [Hc [_ H]]]]]]]];
      try congruence; rewrite H; cbn [fst];
      try (destruct (search_error_cases _ _ _ Hx) as [->|[->| ->]]);
      (split; intros Hy; first [exact I | assumption | congruence | now destruct Hy]).
  - intros rows ->. split; [|split].
    + destruct Hc1 as [[Hap [Hae [[_ Hno]|[rows' [l [_ H]]]]]]|[Hn [msg H]]];
        [discriminate Hno | rewrite H; simpl | rewrite H; simpl].
      * split; [intros _; now split | intros _; exact I].
      * split; [intros [] | intros Ha; exfalso; now apply Hn].
    + destruct (obtener_estadisticas_cases w agrupar_por)
        as [[Hn _]|[[db' [_ [Hbad H]]]|[[Hno _]|[rows' [r [_ [Hc H]]]]]]];
        try congruence; rewrite H; cbn [fst]; (split; intros Hx; first [exact I | assumption | congruence | now destruct Hx]).
    + destruct (buscar_tickets_por_texto_cases w busqueda campo limite)
        as [[Hn _]|[[db' [_ [Hbad H]]]|[[Hno _]|[[rows' [x [Hdb' [Hc [Hs [_ H]]]]]]
           |[rows' [Hdb' [Hc [Hs H]]]]]]]];
        try congruence; rewrite H; cbn [fst].
      * split; [intros [] | intros [Hx _]; congruence].
      * assert (rows' = rows) as -> by congruence.
        split; [intros [] | intros [_ Hx]; congruence].
      * assert (rows' = rows) as -> by congruence.
        split; [intros _; now split | intros _; exact I].
Qed.

(** Accepted and rejected arguments on the example store. *)
Lemma value_error_iff_rejected_witness :
  ~ raises_ValueError (consultar_tickets (Some "URGENTE") (Some "") 5 Demo.seeded)
  /\ raises_ValueError (obtener_estadisticas "mes" Demo.seeded)
  /\ returns (buscar_tickets_por_texto "ssl" "AMBOS" 5 Demo.seeded).
Proof.
  destruct (value_error_iff_rejected
              Demo.seeded (TicketsTable Demo.rows) (Some "URGENTE") (Some "")
              "mes" "ssl" "AMBOS" 5 eq_refl) as [H1 [H2 [_ H4]]].
  split; [|split].
  - intros H. apply H1 in H. apply H. split; [reflexivity | exact I].
  - apply H2. reflexivity.
  - apply (H4 Demo.rows eq_refl). split; reflexivity.
Defined.

(* ------------------------------------------------------------------ *)
(** ** What the limit keeps *)

Lemma sorted_app_order {A : Type} (R : A -> A -> Prop) (l1 l2 : list A)
      (x y : A) :
  StronglySorted R (l1 ++ l2)%list -> In x l1 -> In y l2 -> R x y.
Proof.
  induction l1 as [|a l1 IH]; simpl; intros Hs Hx Hy; [contradiction|].
  inversion Hs as [|? ? Hs' Ha]; subst.
  destruct Hx as [<-|Hx].
  - rewrite Forall_forall in Ha. apply Ha. apply in_or_app. now right.
  - now apply IH.
Qed.

Lemma page_left_out (test : ticket -> bool) (limite : Z) (rows : list ticket)
      (t u : ticket) :
  In t rows -> test t = true ->
  ~ In t (page test limite rows) -> In u (page test limite rows) ->
  String.leb (fecha_creacion t) (fecha_creacion u) = true.
Proof.
  unfold page. intros Ht Htest Hout Hu.
  set (l := Sql.order_by_fecha_desc (filter test rows)) in *.
  set (n := Z.to_nat (clamp limite)) in *.
  assert (Hl : In t l).
  { unfold l, Sql.order_by_fecha_desc. apply sort_In. now apply filter_In. }
  rewrite <- (firstn_skipn n l) in Hl. apply in_app_or in Hl.
  destruct Hl as [Hl|Hl]; [contradiction|].
  pose proof (order_by_newest_first (filter test rows)) as Hs.
  fold l in Hs. unfold newest_first in Hs.
  rewrite <- (firstn_skipn n l) in Hs.
  exact (sorted_app_order _ _ _ u t Hs Hu Hl).
Qed.

Lemma page_prefix (test : ticket -> bool) (l1 l2 : Z) (rows : list ticket) :
  l1 <= l2 ->
  page test l1 rows = firstn (Z.to_nat (clamp l1)) (page test l2 rows).
Proof.
  intros Hle. unfold page. rewrite firstn_firstn.
  replace (Nat.min (Z.to_nat (clamp l1)) (Z.to_nat (clamp l2)))
    with (Z.to_nat (clamp l1)); [reflexivity|].
  unfold clamp. lia.
Qed.

(** X3.  The limit drops the oldest.  On an existing store, with accepted
    arguments and a search text that SQLite accepts as a pattern (the text
    between two '%' is at most 50000 bytes long; on an empty table, at most
    1000000000 bytes), a matching ticket that the listing (or the search) leaves out was created
    no later than every ticket it returns; and when the matching tickets
    are no more than the clamped limit, every one of them is returned. *)
Theorem limit_keeps_the_newest
        (w : world) (rows : list ticket) (p e : option string)
        (busqueda campo : string) (limite : Z) :
  db_file w = Some (TicketsTable rows) ->
  accepted PRIORIDADES p -> accepted ESTADOS e ->
  Str.mem (Str.lower campo) CAMPOS = true ->
  searchable busqueda rows = true ->
  exists (listed searched : list record) (w1 w2 : world),
    consultar_tickets p e limite w = (Return listed, w1)
    /\ buscar_tickets_por_texto busqueda campo limite w = (Return searched, w2)
    /\ (forall t u, In t rows -> passes p e t = true ->
          ~ In (ticket_dict t) listed -> In (ticket_dict u) listed ->
          String.leb (fecha_creacion t) (fecha_creacion u) = true)
    /\ (forall t u, In t rows -> found busqueda (Str.lower campo) t = true ->
          ~ In (ticket_dict t) searched -> In (ticket_dict u) searched ->
          String.leb (fecha_creacion t) (fecha_creacion u) = true)
    /\ ((List.length (filter (passes p e) rows)
         <= Z.to_nat (clamp limite))%nat ->
        forall t, In t rows -> passes p e t = true ->
                  In (ticket_dict t) listed)
    /\ ((List.length (filter (found busqueda (Str.lower campo)) rows)
         <= Z.to_nat (clamp limite))%nat ->
        forall t, In t rows -> found busqueda (Str.lower campo) t = true ->
                  In (ticket_dict t) searched).
Proof.
  intros Hdb Hp He Hc Hs. eexists _, _, _, _.
  split; [apply (consultar_tickets_run w rows _ _ _ Hdb Hp He)|].
  split; [apply (buscar_tickets_por_texto_run w rows _ _ _ Hdb Hc Hs)|].
  split; [|split; [|split]].
  - intros t u Ht Hm Hout Hu. rewrite In_map_ticket_dict in Hout, Hu.
    exact (page_left_out _ _ _ t u Ht Hm Hout Hu).
  - intros t u Ht Hm Hout Hu. rewrite In_map_ticket_dict in Hout, Hu.
    exact (page_left_out _ _ _ t u Ht Hm Hout Hu).
  - intros Hfit t Ht Hm. apply In_map_ticket_dict.
    now apply (page_all_In _ _ _ _ Hfit).
  - intros Hfit t Ht Hm. apply In_map_ticket_dict.
    now apply (page_all_In _ _ _ _ Hfit).
Qed.

(** With limit 2 the listing of the example store leaves out the two
    oldest tickets. *)
Lemma limit_keeps_the_newest_witness :
  exists listed : list record,
    fst (consultar_tickets None None 2 Demo.seeded) = Return listed
    /\ ~ In (ticket_dict Demo.t2) listed
    /\ forall u, In (ticket_dict u) listed ->
         String.leb (fecha_creacion Demo.t2) (fecha_creacion u) = true.
Proof.
  destruct (limit_keeps_the_newest Demo.seeded Demo.rows None None "pagos"
              "asunto" 2 eq_refl I I eq_refl eq_refl)
    as [listed [searched [w1 [w2 [H1 [_ [Hnew _]]]]]]].
  assert (E : fst (consultar_tickets None None 2 Demo.seeded) = Return listed)
    by (now rewrite H1).
  assert (Hout : ~ In (ticket_dict Demo.t2) listed).
  { vm_compute in E. injection E as E. rewrite <- E.
    intros [H|[H|[]]]; vm_compute in H; discriminate H. }
  exists listed. split; [exact E|]. split; [exact Hout|].
  intros u Hu.
  apply (Hnew Demo.t2 u); [right; left; reflexivity | reflexivity | exact Hout
                          | exact Hu].
Defined.

(** X11.  A smaller limit gives a prefix: on an existing store, with
    accepted arguments and a search text that SQLite accepts as a pattern
    (the text between two '%' is at most 50000 bytes long; on an empty
    table, at most 1000000000 bytes), the listing (or the search) asked with the lower of two limits
    is the beginning of the one asked with the higher limit, cut at the
    lower limit clamped. *)
Theorem smaller_limit_gives_prefix
        (w : world) (rows : list ticket) (p e : option string)
        (busqueda campo : string) (limite1 limite2 : Z) :
  db_file w = Some (TicketsTable rows) ->
  accepted PRIORIDADES p -> accepted ESTADOS e ->
  Str.mem (Str.lower campo) CAMPOS = true ->
  searchable busqueda rows = true ->
  limite1 <= limite2 ->
  exists (l1 l2 s1 s2 : list record),
    fst (consultar_tickets p e limite1 w) = Return l1
    /\ fst (consultar_tickets p e limite2 w) = Return l2
    /\ fst (buscar_tickets_por_texto busqueda campo limite1 w) = Return s1
    /\ fst (buscar_tickets_por_texto busqueda campo limite2 w) = Return s2
    /\ l1 = firstn (Z.to_nat (clamp limite1)) l2
    /\ s1 = firstn (Z.to_nat (clamp limite1)) s2.
Proof.
  intros Hdb Hp He Hc Hs Hle. eexists _, _, _, _.
  rewrite !(consultar_tickets_run w rows _ _ _ Hdb Hp He).
  rewrite !(buscar_tickets_por_texto_run w rows _ _ _ Hdb Hc Hs).
  cbn [fst].
  repeat (split; [reflexivity|]).
  rewrite !firstn_map. now rewrite <- !(page_prefix _ limite1 limite2 rows Hle).
Qed.

(** The listing of the example store with limits 1 and 3. *)
Lemma smaller_limit_witness :
  exists l1 l2 : list record,
    fst (consultar_tickets None None 1 Demo.seeded) = Return l1
    /\ fst (consultar_tickets None None 3 Demo.seeded) = Return l2
    /\ l1 = firstn 1 l2.
Proof.
  destruct (smaller_limit_gives_prefix Demo.seeded Demo.rows None None "pagos"
              "asunto" 1 3 eq_refl I I eq_refl eq_refl ltac:(lia))
    as [l1 [l2 [s1 [s2 [H1 [H2 [_ [_ [Hl _]]]]]]]]].
  exists l1, l2. auto.
Defined.

(* ------------------------------------------------------------------ *)
(** ** The shape of a returned ticket *)

(** X12.  Every dictionary the listing or the search returns has exactly
    the eight columns of the table as keys, in table order; [id] is an
    integer, [descripcion] is a text or None, and the six other columns
    are texts. *)
Theorem returned_tickets_have_all_columns
        (w : world) (p e : option string) (busqueda campo : string)
        (limite : Z) (res : list record) (w' : world) (d : record) :
  consultar_tickets p e limite w = (Return res, w')
  \/ buscar_tickets_por_texto busqueda campo limite w = (Return res, w') ->
  In d res ->
  Dict.keys d = ticket_columns
  /\ (exists n, field "id" d = Some (VInt n))
  /\ (field "descripcion" d = Some VNull
      \/ exists s, field "descripcion" d = Some (VText s))
  /\ (forall col,
        In col ["cliente"; "asunto"; "estado"; "prioridad";
                "fecha_creacion"; "fecha_actualizacion"] ->
        exists s, field col d = Some (VText s)).
Proof.
  intros Hrun Hd.
  assert (Ht : exists t, d = ticket_dict t).
  { destruct Hrun as [Hrun|Hrun].
    - destruct (consultar_tickets_cases w p e limite)
        as [[_ H]|[[db [p' [_ [_ [_ H]]]]]|[[db [e' [_ [_ [_ [_ H]]]]]]
           |[[_ [_ [_ H]]]|[rows [_ [_ [_ H]]]]]]]];
        rewrite H in Hrun; try discriminate Hrun.
      injection Hrun as <- _. apply in_map_iff in Hd as [t [<- _]]. now exists t.
    - destruct (buscar_tickets_por_texto_cases w busqueda campo limite)
        as [[_ H]|[[db [_ [_ H]]]|[[_ [_ H]]|[[rows [x [_ [_ [_ [_ H]]]]]]
           |[rows [_ [_ [_ H]]]]]]]];
        rewrite H in Hrun; try discriminate Hrun.
      injection Hrun as <- _. apply in_map_iff in Hd as [t [<- _]]. now exists t. }
  destruct Ht as [t ->].
  split; [reflexivity|].
  split; [now exists (id t)|].
  split.
  - destruct t as [i c a [ds|] es pr fc fa]; [right; now exists ds | now left].
  - intros col Hcol. simpl in Hcol.
    destruct Hcol as [<-|[<-|[<-|[<-|[<-|[<-|[]]]]]]]; eexists; reflexivity.
Qed.

(** The first ticket of the listing of the example store. *)
Lemma returned_tickets_witness :
  Dict.keys (ticket_dict Demo.t1) = ticket_columns.
Proof.
  apply (returned_tickets_have_all_columns
           Demo.seeded None None "pagos" "asunto" 1
           [ticket_dict Demo.t1]
           (after_queries Demo.seeded
              [Sql.SelectAll (listing_where None None) (clamp 1)])
           (ticket_dict Demo.t1)).
  - left. vm_compute. reflexivity.
  - left. reflexivity.
Defined.

(* ------------------------------------------------------------------ *)
(** ** What the statistics count *)

Lemma get_bump (k k' : value) (g : list (value * Z)) :
  Dict.get value_eqb k (Sql.bump k' g) =
  if value_eqb k k'
  then Some (match Dict.get value_eqb k g with
             | Some n => n + 1
             | None => 1
             end)
  else Dict.get value_eqb k g.
Proof.
  induction g as [|[k0 n] g IH]; simpl.
  - now destruct (value_eqb k k').
  - destruct (value_eqb_spec k' k0) as [->|Hne]; simpl.
    + destruct (value_eqb_spec k k0) as [->|Hne']; [reflexivity|].
      reflexivity.
    + destruct (value_eqb_spec k k0) as [->|Hne'].
      * destruct (value_eqb_spec k0 k') as [->|_]; [contradiction | reflexivity].
      * exact IH.
Qed.

Lemma get_group_fold (k : value) (keys : list value) (g : list (value * Z)) :
  Dict.get value_eqb k (fold_left (fun g k => Sql.bump k g) keys g) =
  let c := Z.of_nat (List.length (filter (fun x => value_eqb x k) keys)) in
  match Dict.get value_eqb k g with
  | Some n => Some (n + c)
  | None => if 0 <? c then Some c else None
  end.
Proof.
  revert g. induction keys as [|k' keys IH]; intros g.
  - cbn. destruct (Dict.get value_eqb k g); [f_equal; lia | reflexivity].
  - cbn [fold_left filter]. rewrite IH, get_bump.
    destruct (value_eqb_spec k' k) as [->|Hne].
    + destruct (value_eqb_spec k k) as [_|Hkk]; [|contradiction]. cbn [List.length].
      destruct (Dict.get value_eqb k g); cbv zeta; [f_equal; lia|].
      match goal with
      | |- context [0 <? ?c] => destruct (Z.ltb_spec 0 c); [f_equal; lia | lia]
      end.
    + destruct (value_eqb_spec k k') as [->|_]; [contradiction|].
      reflexivity.
Qed.

Lemma get_tally (k : value) (keys : list value) :
  Dict.get value_eqb k (Sql.tally keys) =
  let c := Z.of_nat (List.length (filter (fun x => value_eqb x k) keys)) in
  if 0 <? c then Some c else None.
Proof. unfold Sql.tally. now rewrite get_group_fold. Qed.

Lemma get_In (k : value) (n : Z) (l : list (value * Z)) :
  NoDup (map fst l) ->
  (Dict.get value_eqb k l = Some n <-> In (k, n) l).
Proof.
  induction l as [|[k0 n0] l IH]; simpl; intros Hnd.
  - split; [discriminate | contradiction].
  - inversion Hnd as [|? ? Hk0 Hl]; subst.
    destruct (value_eqb_spec k k0) as [->|Hne].
    + split.
      * intros E. injection E as ->. now left.
      * intros [E|Hin]; [now injection E as -> |].
        exfalso. apply Hk0. apply in_map_iff. now exists (k0, n).
    + rewrite (IH Hl). split; [now right|].
      intros [E|Hin]; [injection E as -> _; contradiction | exact Hin].
Qed.

Lemma get_perm (k : value) (l l' : list (value * Z)) :
  Permutation l l' -> NoDup (map fst l) ->
  Dict.get value_eqb k l' = Dict.get value_eqb k l.
Proof.
  intros Hp Hnd.
  assert (Hnd' : NoDup (map fst l'))
    by (eapply Permutation_NoDup; [apply Permutation_map, Hp | exact Hnd]).
  destruct (Dict.get value_eqb k l) as [n|] eqn:E.
  - apply (get_In k n l' Hnd'). apply (Permutation_in _ Hp).
    now apply (get_In k n l Hnd).
  - destruct (Dict.get value_eqb k l') as [n|] eqn:E'; [|reflexivity].
    apply (get_In k n l' Hnd') in E'.
    apply (Permutation_in _ (Permutation_sym Hp)) in E'.
    apply (get_In k n l Hnd) in E'. congruence.
Qed.

Lemma get_as_values (k : value) (l : list (value * Z)) :
  Dict.get value_eqb k (map (fun g => (fst g, VInt (snd g))) l)
  = option_map VInt (Dict.get value_eqb k l).
Proof.
  induction l as [|[k0 n] l IH]; simpl; [reflexivity|].
  now destruct (value_eqb k k0).
Qed.

Lemma filter_map_length {A B : Type} (f : B -> bool) (g : A -> B)
      (l : list A) :
  List.length (filter f (map g l))
  = List.length (filter (fun x => f (g x)) l).
Proof.
  induction l as [|x l IH]; simpl; [reflexivity|].
  destruct (f (g x)); simpl; now rewrite IH.
Qed.

Lemma get_groups_of (col : string) (k : value) (rows : list ticket) :
  Dict.get value_eqb k (groups_of col rows)
  = if 0 <? count_value col k rows then Some (count_value col k rows)
    else None.
Proof.
  rewrite (get_perm k _ _ (Permutation_sym (groups_of_perm col rows)))
    by (apply group_fold_NoDup; constructor).
  rewrite get_tally. cbv zeta. unfold count_value.
  now rewrite filter_map_length.
Qed.

Lemma bigger_first_total (a b : value * Z) :
  Sql.bigger_first a b = true \/ Sql.bigger_first b a = true.
Proof. unfold Sql.bigger_first. rewrite !Z.leb_le. lia. Qed.

Lemma bigger_first_trans (a b c : value * Z) :
  Sql.bigger_first a b = true -> Sql.bigger_first b c = true ->
  Sql.bigger_first a c = true.
Proof. unfold Sql.bigger_first. rewrite !Z.leb_le. lia. Qed.

Lemma sorted_counts (l : list (value * Z)) :
  StronglySorted (fun a b => Sql.bigger_first a b = true) l ->
  descending (map snd l).
Proof.
  unfold descending. induction 1 as [|a l Hs IH Ha]; simpl; constructor.
  - exact IH.
  - apply Forall_forall. intros c Hc. apply in_map_iff in Hc as [b [<- Hb]].
    rewrite Forall_forall in Ha. specialize (Ha b Hb).
    unfold Sql.bigger_first in Ha. now apply Z.leb_le.
Qed.

Lemma groups_of_descending (col : string) (rows : list ticket) :
  descending (map snd (groups_of col rows)).
Proof.
  apply sorted_counts.
  apply (sort_sorted Sql.bigger_first bigger_first_total bigger_first_trans).
Qed.

Lemma groups_of_positive (col : string) (rows : list ticket) :
  Forall (fun c => 0 < c) (map snd (groups_of col rows)).
Proof.
  apply Forall_forall. intros c Hc. apply in_map_iff in Hc as [[k n] [<- Hin]].
  apply (get_In k n _ (groups_of_NoDup col rows)) in Hin.
  rewrite get_groups_of in Hin. cbn [snd].
  destruct (Z.ltb_spec 0 (count_value col k rows)); [|discriminate].
  injection Hin as <-. assumption.
Qed.

Lemma distribucion_lookup (col : string) (rows : list ticket) (k : value) :
  Dict.get value_eqb k
    (fill_distribucion
       (map (fun g => [fst g; VInt (snd g)]) (groups_of col rows)))
  = entry_for (count_value col k rows).
Proof.
  rewrite fill_distribucion_groups by apply groups_of_NoDup.
  rewrite get_as_values, get_groups_of. unfold entry_for.
  now destruct (0 <? count_value col k rows).
Qed.

(** X4.  On an existing store and for a valid [agrupar_por], looking up
    any value in [distribucion] gives the number of rows that hold it in
    the grouping column, and no entry when no row holds it; the entries
    are in descending order of count and every count is positive. *)
Theorem distribucion_counts_each_value
        (w : world) (rows : list ticket) (agrupar_por : string) :
  db_file w = Some (TicketsTable rows) ->
  Str.mem (Str.lower agrupar_por) CRITERIOS = true ->
  exists (r : estadisticas) (counts : list Z),
    fst (obtener_estadisticas agrupar_por w) = Return r
    /\ (forall k,
          Dict.get value_eqb k (distribucion r)
          = entry_for (count_value (Str.lower agrupar_por) k rows))
    /\ Dict.values (distribucion r) = map VInt counts
    /\ descending counts
    /\ Forall (fun c => 0 < c) counts.
Proof.
  intros Hdb Hc.
  eexists _, (map snd (groups_of (Str.lower agrupar_por) rows)).
  rewrite (obtener_estadisticas_run w rows _ Hdb Hc).
  split; [reflexivity|].
  cbn [distribucion].
  split; [|split; [|split]].
  - intros k. apply distribucion_lookup.
  - rewrite fill_distribucion_groups by apply groups_of_NoDup.
    unfold Dict.values. now rewrite !map_map.
  - apply groups_of_descending.
  - apply groups_of_positive.
Qed.

(** The example store grouped by client: two tickets of TechCorp, none of
    an unknown client. *)
Lemma distribucion_counts_witness :
  exists r : estadisticas,
    fst (obtener_estadisticas "cliente" Demo.seeded) = Return r
    /\ Dict.get value_eqb (VText "TechCorp S.A.") (distribucion r)
       = Some (VInt 2)
    /\ Dict.get value_eqb (VText "Nadie") (distribucion r) = None.
Proof.
  destruct (distribucion_counts_each_value Demo.seeded Demo.rows "cliente"
              eq_refl eq_refl) as [r [counts [Hrun [Hget _]]]].
  exists r. split; [exact Hrun|]. split; rewrite Hget; reflexivity.
Defined.

Lemma filter_length_bound {A : Type} (f : A -> bool) (l : list A) :
  (List.length (filter f l) <= List.length l)%nat.
Proof.
  induction l as [|x l IH]; simpl; [lia|]. destruct (f x); simpl; lia.
Qed.

(** X5.  The supplementary metrics agree with the distribution.  On an
    existing store, [tickets_abiertos] is the count that the statistics
    grouped by estado list under "abierto", and [tickets_urgentes] the
    count that the statistics grouped by prioridad list under "urgente";
    when the metric is 0 the distribution has no such key.  Both metrics
    lie between 0 and [total_tickets], and they do not depend on
    [agrupar_por]. *)
Theorem metricas_agree_with_distribucion
        (w : world) (rows : list ticket) (agrupar_por : string) :
  db_file w = Some (TicketsTable rows) ->
  Str.mem (Str.lower agrupar_por) CRITERIOS = true ->
  exists (r re rp : estadisticas) (total abiertos urgentes : Z),
    fst (obtener_estadisticas agrupar_por w) = Return r
    /\ fst (obtener_estadisticas "estado" w) = Return re
    /\ fst (obtener_estadisticas "prioridad" w) = Return rp
    /\ total_tickets r = VInt total
    /\ tickets_abiertos (metricas_adicionales r) = VInt abiertos
    /\ tickets_urgentes (metricas_adicionales r) = VInt urgentes
    /\ Dict.get value_eqb (VText "abierto") (distribucion re)
       = entry_for abiertos
    /\ Dict.get value_eqb (VText "urgente") (distribucion rp)
       = entry_for urgentes
    /\ 0 <= abiertos <= total
    /\ 0 <= urgentes <= total.
Proof.
  intros Hdb Hc.
  eexists _, _, _, _, _, _.
  rewrite (obtener_estadisticas_run w rows agrupar_por Hdb Hc).
  rewrite (obtener_estadisticas_run w rows "estado" Hdb eq_refl).
  rewrite (obtener_estadisticas_run w rows "prioridad" Hdb eq_refl).
  split; [reflexivity|]. split; [reflexivity|]. split; [reflexivity|].
  cbn [total_tickets metricas_adicionales tickets_abiertos tickets_urgentes
       distribucion].
  unfold count_where.
  split; [reflexivity|]. split; [reflexivity|]. split; [reflexivity|].
  split; [apply (distribucion_lookup "estado")|].
  split; [apply (distribucion_lookup "prioridad")|].
  pose proof (filter_length_bound is_abierto rows).
  pose proof (filter_length_bound is_urgente rows).
  lia.
Qed.

(** The metrics of the example store against its distributions. *)
Lemma metricas_agree_witness :
  exists (re rp : estadisticas),
    fst (obtener_estadisticas "estado" Demo.seeded) = Return re
    /\ fst (obtener_estadisticas "prioridad" Demo.seeded) = Return rp
    /\ Dict.get value_eqb (VText "abierto") (distribucion re)
       = Some (tickets_abiertos (metricas_adicionales re))
    /\ Dict.get value_eqb (VText "urgente") (distribucion rp)
       = Some (tickets_urgentes (metricas_adicionales rp)).
Proof.
  destruct (metricas_agree_with_distribucion Demo.seeded Demo.rows "estado"
              eq_refl eq_refl)
    as [r [re [rp [total [a [u [Hr [Hre [Hrp _]]]]]]]]].
  exists re, rp. split; [exact Hre|]. split; [exact Hrp|].
  vm_compute in Hre. injection Hre as <-.
  vm_compute in Hrp. injection Hrp as <-.
  split; vm_compute; reflexivity.
Defined.










(* ------------------------------------------------------------------ *)
(** ** Searches with an empty text, and tickets without description *)

Lemma like_percent_percent (s : string) : Str.like "%%" s = true.
Proof.
  change "%%" with (String Str.percent "%").
  destruct s; rewrite like_percent_unfold, like_only_percent; reflexivity.
Qed.

Lemma found_empty_asunto (t : ticket) : found "" "asunto" t = true.
Proof. apply like_percent_percent. Qed.

Lemma found_empty_ambos (t : ticket) : found "" "ambos" t = true.
Proof.
  change (found "" "ambos" t) with (in_asunto "" t || in_descripcion "" t).
  unfold in_asunto, Sql.like_text.
  change (Str.c_string ("%" ++ "" ++ "%")) with "%%".
  now rewrite like_percent_percent.
Qed.

Lemma found_empty_descripcion (t : ticket) :
  found "" "descripcion" t = has_descripcion t.
Proof.
  change (found "" "descripcion" t) with (in_descripcion "" t).
  unfold in_descripcion, has_descripcion.
  destruct (descripcion t); [apply like_percent_percent | reflexivity].
Qed.

Lemma page_ext (f g : ticket -> bool) (limite : Z) (rows : list ticket) :
  (forall t, f t = g t) -> page f limite rows = page g limite rows.
Proof. intros H. unfold page. now rewrite (filter_ext f g H). Qed.

(** X7.  A search with the empty text in [asunto] or in both fields is the
    unfiltered listing: in every world, it gives what [consultar_tickets]
    gives without filters and with the same limit (the same tickets, or
    the same exception). *)
Theorem empty_search_is_the_listing (w : world) (limite : Z) :
  fst (buscar_tickets_por_texto "" "asunto" limite w)
  = fst (consultar_tickets None None limite w)
  /\ fst (buscar_tickets_por_texto "" "ambos" limite w)
     = fst (consultar_tickets None None limite w).
Proof.
  destruct (db_file w) as [[|rows]|] eqn:Hdb.
  - rewrite (consultar_tickets_without_table w None None limite Hdb I I).
    rewrite (buscar_tickets_por_texto_without_table w "" "asunto" limite Hdb eq_refl).
    rewrite (buscar_tickets_por_texto_without_table w "" "ambos" limite Hdb eq_refl).
    split; reflexivity.
  - rewrite (consultar_tickets_run w rows None None limite Hdb I I).
    rewrite (buscar_tickets_por_texto_run w rows "" "asunto" limite Hdb eq_refl
               eq_refl).
    rewrite (buscar_tickets_por_texto_run w rows "" "ambos" limite Hdb eq_refl
               eq_refl).
    cbn [fst]. split; f_equal; f_equal; apply page_ext; intros t.
    + apply found_empty_asunto.
    + apply found_empty_ambos.
  - rewrite (consultar_tickets_missing w None None limite Hdb).
    rewrite !(buscar_tickets_por_texto_missing w _ _ limite Hdb).
    split; reflexivity.
Qed.

(** X8.  A ticket without description (NULL) is never returned by a
    search in [descripcion], whatever text SQLite accepts as a pattern
    (the text between two '%' is at most 50000 bytes long; on an empty
    table, at most 1000000000 bytes), not even the empty one; a search in both fields returns it
    only when its [asunto] matches.  The empty text in [descripcion]
    selects exactly the tickets that have a description. *)
Theorem null_descripcion_is_never_found
        (w : world) (rows : list ticket) (busqueda : string) (limite : Z) :
  db_file w = Some (TicketsTable rows) ->
  searchable busqueda rows = true ->
  exists (in_desc in_both : list record),
    fst (buscar_tickets_por_texto busqueda "descripcion" limite w)
    = Return in_desc
    /\ fst (buscar_tickets_por_texto busqueda "ambos" limite w)
       = Return in_both
    /\ (forall t, In (ticket_dict t) in_desc -> descripcion t <> None)
    /\ (forall t, In (ticket_dict t) in_both -> descripcion t = None ->
          Sql.like_text ("%" ++ busqueda ++ "%") (asunto t) = true)
    /\ fst (buscar_tickets_por_texto "" "descripcion" limite w)
       = Return (map ticket_dict (page has_descripcion limite rows)).
Proof.
  intros Hdb Hs. eexists _, _.
  rewrite (buscar_tickets_por_texto_run w rows busqueda "descripcion" limite
             Hdb eq_refl Hs).
  rewrite (buscar_tickets_por_texto_run w rows busqueda "ambos" limite
             Hdb eq_refl Hs).
  rewrite (buscar_tickets_por_texto_run w rows "" "descripcion" limite
             Hdb eq_refl eq_refl).
  cbn [fst].
  split; [reflexivity|]. split; [reflexivity|].
  split; [|split].
  - intros t Ht. apply In_map_ticket_dict in Ht. apply page_In in Ht as [_ Hm].
    change (found busqueda (Str.lower "descripcion") t)
      with (in_descripcion busqueda t) in Hm.
    unfold in_descripcion in Hm. destruct (descripcion t); congruence.
  - intros t Ht Hnull. apply In_map_ticket_dict in Ht.
    apply page_In in Ht as [_ Hm].
    change (found busqueda (Str.lower "ambos") t)
      with (in_asunto busqueda t || in_descripcion busqueda t) in Hm.
    unfold in_descripcion in Hm. rewrite Hnull, orb_false_r in Hm. exact Hm.
  - f_equal. f_equal. apply page_ext. intros t. apply found_empty_descripcion.
Qed.

(** Ticket 4 of the example store has no description: the empty search in
    [descripcion] returns the three others. *)
Lemma null_descripcion_witness :
  fst (buscar_tickets_por_texto "" "descripcion" 20 Demo.seeded)
  = Return [ticket_dict Demo.t1; ticket_dict Demo.t3; ticket_dict Demo.t2].
Proof.
  destruct (null_descripcion_is_never_found Demo.seeded Demo.rows "" 20
              eq_refl eq_refl) as [a [b [_ [_ [_ [_ H]]]]]].
  rewrite H. vm_compute. reflexivity.
Defined.

(* ------------------------------------------------------------------ *)
(** ** Letter case of the arguments *)

(** X9.  Enumerated arguments are read up to letter case: two values of
    [prioridad], [estado], [agrupar_por] or [campo] with the same
    lower-case form give the same outcome and leave the same world, in
    every world. *)
Theorem enum_arguments_ignore_case
        (w : world) (p1 p2 e1 e2 g1 g2 c1 c2 busqueda : string) (limite : Z) :
  Str.lower p1 = Str.lower p2 -> Str.lower e1 = Str.lower e2 ->
  Str.lower g1 = Str.lower g2 -> Str.lower c1 = Str.lower c2 ->
  consultar_tickets (Some p1) (Some e1) limite w
  = consultar_tickets (Some p2) (Some e2) limite w
  /\ obtener_estadisticas g1 w = obtener_estadisticas g2 w
  /\ buscar_tickets_por_texto busqueda c1 limite w
     = buscar_tickets_por_texto busqueda c2 limite w.
Proof.
  intros Hp He Hg Hc. split; [|split].
  - unfold consultar_tickets.
    destruct p1 as [|a1 p1], p2 as [|a2 p2]; try discriminate Hp;
      destruct e1 as [|b1 e1], e2 as [|b2 e2]; try discriminate He;
      cbn [truthy]; rewrite ?Hp, ?He; reflexivity.
  - unfold obtener_estadisticas. now rewrite Hg.
  - unfold buscar_tickets_por_texto. now rewrite Hc.
Qed.

(** "ALTA"/"alta", "Abierto"/"abierto", and so on, on the example store. *)
Lemma enum_arguments_witness :
  consultar_tickets (Some "ALTA") (Some "Abierto") 20 Demo.seeded
  = consultar_tickets (Some "alta") (Some "abierto") 20 Demo.seeded
  /\ obtener_estadisticas "CLIENTE" Demo.seeded
     = obtener_estadisticas "cliente" Demo.seeded
  /\ buscar_tickets_por_texto "pagos" "Ambos" 20 Demo.seeded
     = buscar_tickets_por_texto "pagos" "ambos" 20 Demo.seeded.
Proof.
  apply (enum_arguments_ignore_case Demo.seeded "ALTA" "alta" "Abierto"
           "abierto" "CLIENTE" "cliente" "Ambos" "ambos" "pagos" 20);
    reflexivity.
Defined.

Lemma fold_ascii_percent (c : ascii) :
  Str.fold_ascii c = Str.percent -> c = Str.percent.
Proof.
  destruct c as [[] [] [] [] [] [] [] []]; vm_compute; intros H;
    solve [reflexivity | discriminate H].
Qed.

Lemma fold_ascii_underscore (c : ascii) :
  Str.fold_ascii c = Str.underscore -> c = Str.underscore.
Proof.
  destruct c as [[] [] [] [] [] [] [] []]; vm_compute; intros H;
    solve [reflexivity | discriminate H].
Qed.

Lemma same_fold_same_wildcard (c d : ascii) :
  Str.fold_ascii c = Str.fold_ascii d ->
  Ascii.eqb c Str.percent = Ascii.eqb d Str.percent
  /\ Ascii.eqb c Str.underscore = Ascii.eqb d Str.underscore.
Proof.
  intros H. split.
  - destruct (Ascii.eqb_spec c Str.percent) as [->|Hc],
             (Ascii.eqb_spec d Str.percent) as [->|Hd]; try reflexivity.
    + symmetry in H. apply fold_ascii_percent in H. contradiction.
    + apply fold_ascii_percent in H. contradiction.
  - destruct (Ascii.eqb_spec c Str.underscore) as [->|Hc],
             (Ascii.eqb_spec d Str.underscore) as [->|Hd]; try reflexivity.
    + symmetry in H. apply fold_ascii_underscore in H. contradiction.
    + apply fold_ascii_underscore in H. contradiction.
Qed.

Lemma like_nocase (p q : string) :
  eq_nocase p q = true -> forall s, Str.like p s = Str.like q s.
Proof.
  revert q. induction p as [|c p IH]; intros [|d q] H; try discriminate H.
  - reflexivity.
  - cbn [eq_nocase] in H. apply andb_true_iff in H as [Hcd Hpq].
    apply Ascii.eqb_eq in Hcd.
    destruct (same_fold_same_wildcard c d Hcd) as [Hpc Hun].
    destruct (Ascii.eqb c Str.percent) eqn:Ec.
    + apply Ascii.eqb_eq in Ec. symmetry in Hpc.
      apply Ascii.eqb_eq in Hpc. subst c d.
      induction s as [|a s IHs].
      * rewrite !like_percent_unfold. now rewrite (IH q Hpq).
      * rewrite (like_percent_unfold p), (like_percent_unfold q).
        now rewrite (IH q Hpq), IHs.
    + intros s. cbn [Str.like]. rewrite Ec, <- Hpc, <- Hun, Hcd.
      destruct s as [|a s]; [reflexivity|]. now rewrite (IH q Hpq).
Qed.

Lemma eq_nocase_wrapped (b1 b2 : string) :
  eq_nocase b1 b2 = true ->
  eq_nocase ("%" ++ b1 ++ "%") ("%" ++ b2 ++ "%") = true.
Proof.
  intros H. cbn [append eq_nocase]. rewrite Ascii.eqb_refl. cbn [andb].
  revert b2 H. induction b1 as [|c b1 IH]; intros [|d b2] H;
    try discriminate H; [reflexivity|].
  cbn [eq_nocase append] in *. apply andb_true_iff in H as [Hc Hb].
  rewrite Hc. cbn [andb]. now apply IH.
Qed.

Lemma fold_ascii_nul (c : ascii) :
  Ascii.eqb (Str.fold_ascii c) Str.nul = Ascii.eqb c Str.nul.
Proof. destruct c as [[] [] [] [] [] [] [] []]; reflexivity. Qed.

Lemma fold_ascii_bytes (c : ascii) :
  (N_of_ascii (Str.fold_ascii c) <? 128)%N = (N_of_ascii c <? 128)%N.
Proof. destruct c as [[] [] [] [] [] [] [] []]; reflexivity. Qed.

Lemma eq_nocase_c_string (a b : string) :
  eq_nocase a b = true -> eq_nocase (Str.c_string a) (Str.c_string b) = true.
Proof.
  revert b. induction a as [|c a IH]; intros [|d b] H; try discriminate H;
    [reflexivity|].
  cbn [eq_nocase] in H. apply andb_true_iff in H as [Hcd Hab].
  cbn [Str.c_string].
  rewrite <- (fold_ascii_nul c), <- (fold_ascii_nul d).
  rewrite (proj1 (Ascii.eqb_eq _ _) Hcd).
  destruct (Ascii.eqb (Str.fold_ascii d) Str.nul); [reflexivity|].
  cbn [eq_nocase]. rewrite Hcd. cbn [andb]. now apply IH.
Qed.

Lemma eq_nocase_utf8_bytes (a b : string) :
  eq_nocase a b = true -> Str.utf8_bytes a = Str.utf8_bytes b.
Proof.
  revert b. induction a as [|c a IH]; intros [|d b] H; try discriminate H;
    [reflexivity|].
  cbn [eq_nocase] in H. apply andb_true_iff in H as [Hcd Hab].
  cbn [Str.utf8_bytes].
  rewrite <- (fold_ascii_bytes c), <- (fold_ascii_bytes d).
  rewrite (proj1 (Ascii.eqb_eq _ _) Hcd). now rewrite (IH b Hab).
Qed.

Lemma found_nocase (b1 b2 campo : string) (t : ticket) :
  eq_nocase b1 b2 = true -> found b1 campo t = found b2 campo t.
Proof.
  intros H.
  pose proof (like_nocase _ _ (eq_nocase_c_string _ _ (eq_nocase_wrapped _ _ H)))
    as Hl.
  unfold found, in_asunto, in_descripcion, Sql.like_text.
  rewrite (Hl (Str.c_string (asunto t))).
  destruct (descripcion t) as [d|]; [now rewrite (Hl (Str.c_string d))
                                    | reflexivity].
Qed.

Lemma searchable_nocase (b1 b2 : string) (rows : list ticket) :
  eq_nocase b1 b2 = true -> searchable b1 rows = searchable b2 rows.
Proof.
  intros H. unfold searchable, fits, binds, Sql.pattern_fits.
  now rewrite (eq_nocase_utf8_bytes _ _ (eq_nocase_wrapped _ _ H)).
Qed.

Lemma search_error_nocase (b1 b2 : string) (rows : list ticket) :
  eq_nocase b1 b2 = true -> search_error b1 rows = search_error b2 rows.
Proof.
  intros H. unfold search_error, bind_param, fits, Sql.pattern_fits.
  now rewrite (eq_nocase_utf8_bytes _ _ (eq_nocase_wrapped _ _ H)).
Qed.

(** X10.  The search text is read up to ASCII letter case: two texts that
    differ only in the case of ASCII letters give the same tickets (or the
    same exception), in every world and for every [campo]. *)
Theorem search_text_ignores_ascii_case
        (w : world) (b1 b2 campo : string) (limite : Z) :
  eq_nocase b1 b2 = true ->
  fst (buscar_tickets_por_texto b1 campo limite w)
  = fst (buscar_tickets_por_texto b2 campo limite w).
Proof.
  intros H.
  destruct (buscar_tickets_por_texto_cases w b1 campo limite)
    as [[Hdb H1]|[[db [Hdb [Hbad H1]]]|[[Hdb [Hc H1]]
       |[[rows [x [Hdb [Hc [_ [Hs H1]]]]]]|[rows [Hdb [Hc [Hs H1]]]]]]]];
    rewrite H1.
  - now rewrite (buscar_tickets_por_texto_missing w b2 campo limite Hdb).
  - now rewrite (buscar_tickets_por_texto_bad_campo w db b2 campo limite Hdb Hbad).
  - now rewrite (buscar_tickets_por_texto_without_table w b2 campo limite Hdb Hc).
  - rewrite (search_error_nocase _ _ rows H) in Hs.
    now rewrite (buscar_tickets_por_texto_raises w rows b2 campo limite x
                   Hdb Hc Hs).
  - rewrite (searchable_nocase _ _ rows H) in Hs.
    rewrite (buscar_tickets_por_texto_run w rows b2 campo limite Hdb Hc Hs).
    cbn [fst]. f_equal. f_equal. apply page_ext. intros t.
    now apply found_nocase.
Qed.

(** "SSL" and "ssl" on the example store. *)
Lemma search_text_witness :
  fst (buscar_tickets_por_texto "SSL" "asunto" 20 Demo.seeded)
  = fst (buscar_tickets_por_texto "ssl" "asunto" 20 Demo.seeded).
Proof.
  apply (search_text_ignores_ascii_case Demo.seeded "SSL" "ssl" "asunto" 20).
  reflexivity.
Defined.

(* ------------------------------------------------------------------ *)
(** ** Creating the store, then querying it *)




(* ------------------------------------------------------------------ *)
(** ** Connections over several calls *)

Lemma remove_fresh (w : world) :
  fresh_handles w ->
  remove Nat.eq_dec (next_conn w) (open_conns w) = open_conns w.
Proof.
  intros H. apply notin_remove. intros Hin.
  unfold fresh_handles in H. rewrite Forall_forall in H.
  specialize (H _ Hin). lia.
Qed.

Lemma fresh_handles_step (w w' : world) :
  fresh_handles w -> next_conn w' = S (next_conn w) ->
  open_conns w' = open_conns w -> fresh_handles w'.
Proof.
  unfold fresh_handles. intros H Hn Ho. rewrite Hn, Ho.
  eapply Forall_impl; [|exact H]. intros c Hc. simpl in Hc. lia.
Qed.

(** X15.  With the table in place the tools leave the connections as they
    found them.  In a world where every open handle was handed out
    earlier, after a call of the listing or the statistics, with arguments
    valid or not, and after a call of the search whose [campo] is rejected
    or whose text SQLite accepts as a pattern (the text between two '%' is
    at most 50000 bytes long; on an empty table, at most 1000000000 bytes),
    exactly the handles
    that were open before are open (the one the tool opened is closed,
    none of the others is touched), and the next call gets a new handle. *)
Theorem handles_balance_with_table
        (w : world) (rows : list ticket) (p e : option string)
        (agrupar_por busqueda campo : string) (limite : Z) :
  db_file w = Some (TicketsTable rows) ->
  fresh_handles w ->
  (open_conns (snd (consultar_tickets p e limite w)) = open_conns w
   /\ next_conn (snd (consultar_tickets p e limite w)) = S (next_conn w)
   /\ fresh_handles (snd (consultar_tickets p e limite w)))
  /\ (open_conns (snd (obtener_estadisticas agrupar_por w)) = open_conns w
      /\ next_conn (snd (obtener_estadisticas agrupar_por w))
         = S (next_conn w)
      /\ fresh_handles (snd (obtener_estadisticas agrupar_por w)))
  /\ (Str.mem (Str.lower campo) CAMPOS = false
      \/ searchable busqueda rows = true ->
      open_conns (snd (buscar_tickets_por_texto busqueda campo limite w))
      = open_conns w
      /\ next_conn (snd (buscar_tickets_por_texto busqueda campo limite w))
         = S (next_conn w)
      /\ fresh_handles
           (snd (buscar_tickets_por_texto busqueda campo limite w))).
Proof.
  intros Hdb Hf.
  assert (Hstep : forall w', next_conn w' = S (next_conn w) ->
                    open_conns w' = remove Nat.eq_dec (next_conn w) (open_conns w) ->
                    open_conns w' = open_conns w
                    /\ next_conn w' = S (next_conn w) /\ fresh_handles w').
  { intros w' Hn Ho. rewrite (remove_fresh w Hf) in Ho.
    split; [exact Ho|]. split; [exact Hn|].
    now apply (fresh_handles_step w w'). }
  split; [|split].
  - destruct (consultar_tickets_cases w p e limite)
      as [[Hn H]|[[db [p' [_ [_ [_ H]]]]]|[[db [e' [_ [_ [_ [_ H]]]]]]
         |[[Hn [_ [_ H]]]|[rows' [_ [_ [_ H]]]]]]]];
      try congruence; rewrite H; apply Hstep; reflexivity.
  - destruct (obtener_estadisticas_cases w agrupar_por)
      as [[Hn H]|[[db [_ [_ H]]]|[[Hn [_ H]]|[rows' [r [_ [_ H]]]]]]];
      try congruence; rewrite H; apply Hstep; reflexivity.
  - intros Hok.
    destruct (buscar_tickets_por_texto_cases w busqueda campo limite)
      as [[Hn H]|[[db [_ [_ H]]]|[[Hn [_ H]]|[[rows' [x [Hr [Hc [Hs [_ H]]]]]]
         |[rows' [_ [_ [_ H]]]]]]]];
      try congruence; try (rewrite H; apply Hstep; reflexivity).
    assert (rows' = rows) as -> by congruence.
    destruct Hok; congruence.
Qed.

(** A rejected call and a successful call on the example store. *)
Lemma handles_balance_witness :
  open_conns (snd (consultar_tickets (Some "critica") None 20 Demo.seeded)) = []
  /\ open_conns (snd (obtener_estadisticas "estado" Demo.seeded)) = []
  /\ open_conns (snd (buscar_tickets_por_texto "pagos" "asunto" 20
                        Demo.seeded)) = [].
Proof.
  destruct (handles_balance_with_table Demo.seeded Demo.rows
              (Some "critica") None "estado" "pagos" "asunto" 20
              eq_refl (Forall_nil _))
    as [[H1 _] [[H2 _] H3]].
  split; [exact H1|]. split; [exact H2|].
  exact (proj1 (H3 (or_intror eq_refl))).
Defined.

(* ------------------------------------------------------------------ *)
(** ** The statements the tools send *)

Lemma stats_stmts_well_formed (g : string) :
  Str.mem g CRITERIOS = true -> Forall well_formed_stmt (stats_stmts g).
Proof.
  intros Hc. pose proof (criterio_is_column g Hc) as Hcol.
  apply mem_In in Hc.
  unfold stats_stmts. repeat apply Forall_cons; try apply Forall_nil;
    unfold well_formed_stmt.
  - split; [reflexivity | exact I].
  - split; [exact Hcol | split; [exact Hc | now left]].
  - split; [reflexivity | exact I].
  - split; [reflexivity | exact I].
  - split; [reflexivity | split; [right; right; now left | now right]].
Qed.

Lemma search_stmt_well_formed (busqueda campo : string) (limite : Z) :
  Str.mem campo CAMPOS = true ->
  well_formed_stmt (search_stmt busqueda campo limite).
Proof.
  intros Hc. split; [now apply search_stmt_ok|].
  unfold search_stmt. destruct (String.eqb campo "ambos"); apply clamp_range.
Qed.

(** X17.  The tools only send well-formed statements, and only after
    their arguments passed validation.  In every world and for all
    arguments, what a call adds to the log of executed statements is
    nothing, or the one SELECT of the listing or search, or the five
    SELECTs of the statistics; each names existing columns only, the
    grouping column spliced into the text is estado, prioridad or cliente,
    and every LIMIT sent is between 1 and 100 (5 for the top clients). *)
Theorem tools_send_well_formed_statements
        (w : world) (p e : option string)
        (agrupar_por busqueda campo : string) (limite : Z) :
  (exists sent,
     executed (snd (consultar_tickets p e limite w))
     = (executed w ++ sent)%list
     /\ (List.length sent <= 1)%nat /\ Forall well_formed_stmt sent)
  /\ (exists sent,
        executed (snd (obtener_estadisticas agrupar_por w))
        = (executed w ++ sent)%list
        /\ (sent = [] \/ sent = stats_stmts (Str.lower agrupar_por))
        /\ Forall well_formed_stmt sent)
  /\ (exists sent,
        executed (snd (buscar_tickets_por_texto busqueda campo limite w))
        = (executed w ++ sent)%list
        /\ (List.length sent <= 1)%nat /\ Forall well_formed_stmt sent).
Proof.
  assert (Hnil : forall w' : world, executed w' = executed w ->
            executed w' = (executed w ++ [])%list)
    by (intros w' H; now rewrite app_nil_r).
  split; [|split].
  - destruct (consultar_tickets_cases w p e limite)
      as [[_ H]|[[db [p' [_ [_ [_ H]]]]]|[[db [e' [_ [_ [_ [_ H]]]]]]
         |[[_ [_ [_ H]]]|[rows [_ [_ [_ H]]]]]]]]; rewrite H.
    1-4: exists []; split; [now apply Hnil | split; [simpl; lia | constructor]].
    eexists. split; [reflexivity|]. split; [simpl; lia|].
    constructor; [|constructor].
    split; [apply listing_where_ok | apply clamp_range].
  - destruct (obtener_estadisticas_cases w agrupar_por)
      as [[_ H]|[[db [_ [_ H]]]|[[_ [_ H]]|[rows [r [_ [Hc H]]]]]]]; rewrite H.
    1-3: exists []; split; [now apply Hnil | split; [now left | constructor]].
    eexists. split; [reflexivity|]. split; [now right|].
    now apply stats_stmts_well_formed.
  - destruct (buscar_tickets_por_texto_cases w busqueda campo limite)
      as [[_ H]|[[db [_ [_ H]]]|[[_ [_ H]]|[[rows [x [_ [_ [_ [_ H]]]]]]
         |[rows [_ [Hc [_ H]]]]]]]]; rewrite H.
    1-4: exists []; split; [now apply Hnil | split; [simpl; lia | constructor]].
    eexists. split; [reflexivity|]. split; [simpl; lia|].
    constructor; [|constructor]. now apply search_stmt_well_formed.
Qed.
